(** * Panel TMB reporter (tmb_reporter_simple.py): shallow embedding

    The reporter reads tab-delimited VCF text, decodes the FORMAT/sample
    pair of every data line, classifies each record against fixed
    thresholds and divides the number of kept records by the panel size.

    Conventions of the embedding:
    - Python [str] is [string]; characters are ASCII.
    - Python [int] is [Z]; [float] is IEEE binary64, taken from the
      standard library's [spec_float] with [prec = 53], [emax = 1024].
    - [None] is [option]'s [None]; a dict used as a map is a [gmap].
    - [raise] is the left injection of a sum; [try .. except Exception]
      is written out with the mutable [result] dict as explicit state.
    - The files a run reads are a map from paths to lines.  What a run
      writes (the output directory, the reports, the workbook, the
      console) goes through the [Runtime], where each operation returns
      or raises as a function of its arguments; the files written are
      not among those read in the same run. *)

From Stdlib Require Import ZArith String Ascii List Lia DecimalString.
From Stdlib Require Import Floats.SpecFloat.
From stdpp Require Import base gmap strings list fin_maps.

Local Open Scope Z_scope.

(** ** Python primitives *)

Module Py.

(** *** Characters and strings *)

Definition chars (s : string) : list ascii := String.list_ascii_of_string s.
Definition str (l : list ascii) : string := String.string_of_list_ascii l.

Definition len (s : string) : nat := length (chars s).

(** The newline and the tab *)
Definition nl : string := String "010"%char EmptyString.
Definition tab : ascii := "009"%char.

(** [bool(s)]: a string is truthy when it is not empty. *)
Definition truthy (s : string) : bool :=
  match s with EmptyString => false | String _ _ => true end.

(** [s.startswith(p)] *)
Definition startswith (p s : string) : bool := String.prefix p s.

(** [str.isspace] on an ASCII character: 9..13, 28..31 and the blank. *)
Definition isspace (c : ascii) : bool :=
  let n := nat_of_ascii c in
  ((9 <=? n)%nat && (n <=? 13)%nat) || ((28 <=? n)%nat && (n <=? 32)%nat).

(** [re.fullmatch(r"\d", c)] on an ASCII character. *)
Definition isdigit (c : ascii) : bool :=
  let n := nat_of_ascii c in (48 <=? n)%nat && (n <=? 57)%nat.

Definition upper_char (c : ascii) : ascii :=
  let n := nat_of_ascii c in
  if (97 <=? n)%nat && (n <=? 122)%nat then ascii_of_nat (n - 32) else c.

(** [s.upper()] *)
Definition upper (s : string) : string := str (upper_char <$> chars s).

(** [l.lstrip] / [l.rstrip] / [l.strip] for a predicate on characters. *)
Fixpoint lstrip_by (p : ascii → bool) (l : list ascii) : list ascii :=
  match l with
  | c :: l' => if p c then lstrip_by p l' else l
  | [] => []
  end.
Definition rstrip_by (p : ascii → bool) (l : list ascii) : list ascii :=
  reverse (lstrip_by p (reverse l)).

Definition is_char (c : ascii) : ascii → bool := λ x, bool_decide (x = c).

(** [s.strip()] *)
Definition strip (s : string) : string :=
  str (rstrip_by isspace (lstrip_by isspace (chars s))).
(** [s.lstrip(c)] and [s.rstrip(c)] for a one-character argument *)
Definition lstrip (c : ascii) (s : string) : string :=
  str (lstrip_by (is_char c) (chars s)).
Definition rstrip (c : ascii) (s : string) : string :=
  str (rstrip_by (is_char c) (chars s)).

(** [s.split(sep)] for a one-character separator: never empty. *)
Fixpoint split_go (sep : ascii) (cur : list ascii) (l : list ascii)
  : list string :=
  match l with
  | [] => [str (reverse cur)]
  | c :: l' =>
      if bool_decide (c = sep) then str (reverse cur) :: split_go sep [] l'
      else split_go sep (c :: cur) l'
  end.
Definition split (sep : ascii) (s : string) : list string :=
  split_go sep [] (chars s).

(** [sep in s] for a one-character needle *)
Definition contains (sep : ascii) (s : string) : bool :=
  bool_decide (sep ∈ chars s).

(** [u * n] on sequences *)
Definition mul {A} (u : list A) (n : nat) : list A := mjoin (replicate n u).

(** [len(set(l))] *)
Definition len_set (l : list ascii) : nat :=
  size (list_to_set l : gset ascii).

End Py.

(** ** Repeat-artifact heuristics *)

Definition is_homopolymer (seq : string) : bool :=
  if negb (Py.truthy seq) then false
  else bool_decide (Py.len_set (Py.chars seq) = 1%nat) && (3 <=? Py.len seq)%nat.

Definition is_dinuc_repeat (seq : string) : bool :=
  if negb (Py.truthy seq) || (Py.len seq <? 4)%nat then false
  else
    let l := Py.chars seq in
    let unit := take 2 l in
    bool_decide
      (l = Py.mul unit (length l / 2) ++ take (length l mod 2) unit).

Definition looks_like_str_artifact (ref alt : string) : bool :=
  let ref := Py.upper ref in
  let alt := Py.upper alt in
  let alts := if Py.contains "," alt then Py.split "," alt else [alt] in
  existsb (λ allele, is_homopolymer allele || is_dinuc_repeat allele)
          (ref :: alts).

(** ** Numbers *)

(** Python [float]: IEEE binary64. *)
Definition float : Type := spec_float.

Module Num.

(** *** [int(s)] for a string argument, base 10

    Surrounding white space is dropped, one sign is allowed, and single
    underscores may separate digits.  [None] stands for [ValueError]. *)

(** White space as [int] sees it: the characters 9..13 and the blank.
    The separators 28..31, which [str.strip] drops, are not among them. *)
Definition isspace (c : ascii) : bool :=
  let n := nat_of_ascii c in
  ((9 <=? n)%nat && (n <=? 13)%nat) || (n =? 32)%nat.

(** [sys.get_int_max_str_digits()]: the default of CPython 3.11, which
    the program leaves as it is.  A literal with more digits is refused,
    leading zeros counted, underscores and the sign not. *)
Definition max_str_digits : nat := 4300.

Definition digit (c : ascii) : Z := Z.of_nat (nat_of_ascii c - 48).

Fixpoint digits_go (acc : Z) (after_digit : bool) (l : list ascii)
  : option Z :=
  match l with
  | [] => if after_digit then Some acc else None
  | c :: l' =>
      if Py.isdigit c then digits_go (10 * acc + digit c) true l'
      else if bool_decide (c = "_"%char) && after_digit
           then digits_go acc false l'
           else None
  end.

(** The number of digits of a literal *)
Definition count_digits (l : list ascii) : nat :=
  length (filter (λ c, Py.isdigit c = true) l).

(** The literal once white space and sign are taken off *)
Definition literal (l : list ascii) : option Z :=
  if (max_str_digits <? count_digits l)%nat then None
  else digits_go 0 false l.

Definition int (s : string) : option Z :=
  let l := Py.rstrip_by isspace (Py.lstrip_by isspace (Py.chars s)) in
  match l with
  | c :: l' =>
      if bool_decide (c = "-"%char) then Z.opp <$> literal l'
      else if bool_decide (c = "+"%char) then literal l'
      else literal l
  | [] => None
  end.

(** [re.fullmatch(r"\d+", s)] *)
Definition all_digits (s : string) : bool :=
  Py.truthy s && forallb Py.isdigit (Py.chars s).

(** [str(n)] *)
Definition str_int (n : Z) : string := NilZero.string_of_int (Z.to_int n).

(** [max(l)] on a non-empty list of integers *)
Definition max_list (l : list Z) : option Z :=
  match l with
  | [] => None
  | x :: l' => Some (foldl Z.max x l')
  end.

(** *** binary64 *)

Definition prec : Z := 53.
Definition emax : Z := 1024.

Definition nan : float := S754_nan.
Definition isnan (x : float) : bool :=
  match x with S754_nan => true | _ => false end.
Definition isinf (x : float) : bool :=
  match x with S754_infinity _ => true | _ => false end.
(** [bool(x)]: only the two zeros are falsy. *)
Definition truthy (x : float) : bool :=
  match x with S754_zero _ => false | _ => true end.

Definition zero : float := S754_zero false.
Definition ltb (x y : float) : bool := SFltb x y.

(** [float(n)] for an integer [n], rounded to nearest even. *)
Definition of_int (n : Z) : float := binary_normalize prec emax n 0 false.
(** [x / y] on floats with [y] known to be non-zero. *)
Definition fdiv (x y : float) : float := SFdiv prec emax x y.

(** The integer [n] as an unrounded significand with exponent 0. *)
Definition exact (n : Z) : float :=
  match n with
  | Z0 => S754_zero false
  | Zpos p => S754_finite false p 0
  | Zneg p => S754_finite true p 0
  end.

(** [a / b] on two integers: the exact quotient rounded once.
    [None] when [b = 0] ([ZeroDivisionError]) or when the rounded
    quotient leaves the binary64 range ([OverflowError]). *)
Definition truediv (a b : Z) : option float :=
  if b =? 0 then None
  else
    let q := SFdiv prec emax (exact a) (exact b) in
    if isinf q then None else Some q.

End Num.

(** ** Exceptions and the two effect monads *)

(** The exceptions the program and the builtins raise, and [Raised] for
    an exception of any other class, named, that the operating system or
    a library raises on output. *)
Inductive exn : Type :=
| FileNotFoundError (arg : string)
| ValueError (arg : string)
| OverflowError (arg : string)
| TypeError (arg : string)
| Raised (cls : string) (arg : string).

(** [str(e)]: the text the exception was built with. *)
Definition str_exn (e : exn) : string :=
  match e with
  | FileNotFoundError a | ValueError a | OverflowError a | TypeError a
  | Raised _ a => a
  end.

(** A computation that returns or raises. *)
Definition Res (A : Type) : Type := exn + A.

Global Instance Res_ret : MRet Res := λ A x, inr x.
Global Instance Res_bind : MBind Res := λ A B f m,
  match m with inl e => inl e | inr x => f x end.

(** A computation over a mutable store [S] that returns or raises; the
    store survives a [raise], as a Python dict mutated before the
    exception does. *)
Definition ST (S A : Type) : Type := S → S * Res A.

Module St.
Section Ops.
Context {S : Type}.
Definition ret {A} (x : A) : ST S A := λ s, (s, inr x).
Definition bind {A B} (m : ST S A) (f : A → ST S B) : ST S B :=
  λ s, match m s with
       | (s', inl e) => (s', inl e)
       | (s', inr x) => f x s'
       end.
Definition raise {A} (e : exn) : ST S A := λ s, (s, inl e).
Definition get : ST S S := λ s, (s, inr s).
Definition modify (f : S → S) : ST S unit := λ s, (f s, inr tt).
(** [try: body  except Exception: handler] *)
Definition try_except {A} (body : ST S A) (handler : exn → ST S A)
  : ST S A :=
  λ s, match body s with
       | (s', inl e) => handler e s'
       | r => r
       end.
(** run a computation that has no store of its own *)
Definition of_res {A} (m : Res A) : ST S A := λ s, (s, m).
(** lift an optional value, raising [e] when it is missing *)
Definition lift {A} (e : exn) (o : option A) : ST S A :=
  match o with Some x => ret x | None => raise e end.
End Ops.
End St.

Global Instance ST_ret {S} : MRet (ST S) := λ A, St.ret.
Global Instance ST_bind {S} : MBind (ST S) := λ A B f m, St.bind m f.

(** ** Genotype field decoder *)

(** The [result] dict of [parse_format]; its five keys are fixed. *)
Record result : Type := mkResult {
  r_GT : option string;
  r_DP : option Z;
  r_CLCAD2 : option string;
  r_ALT_AD_MAX : option Z;
  r_VAF : option float
}.

Definition result_init : result := mkResult None None None None None.

Definition set_GT (v : option string) (r : result) : result :=
  mkResult v (r_DP r) (r_CLCAD2 r) (r_ALT_AD_MAX r) (r_VAF r).
Definition set_DP (v : option Z) (r : result) : result :=
  mkResult (r_GT r) v (r_CLCAD2 r) (r_ALT_AD_MAX r) (r_VAF r).
Definition set_CLCAD2 (v : option string) (r : result) : result :=
  mkResult (r_GT r) (r_DP r) v (r_ALT_AD_MAX r) (r_VAF r).
Definition set_ALT_AD_MAX (v : option Z) (r : result) : result :=
  mkResult (r_GT r) (r_DP r) (r_CLCAD2 r) v (r_VAF r).
Definition set_VAF (v : option float) (r : result) : result :=
  mkResult (r_GT r) (r_DP r) (r_CLCAD2 r) (r_ALT_AD_MAX r) v.

(** [dict(pairs)]: pairs are inserted in order, a later key overrides. *)
Definition dict {V} (pairs : list (string * V)) : gmap string V :=
  foldl (λ m kv, <[kv.1 := kv.2]> m) ∅ pairs.

(** [x.split(":") if x else []] *)
Definition split_fields (x : option string) : list string :=
  match x with
  | Some s => if Py.truthy s then Py.split ":" s else []
  | None => []
  end.

(** The [ValueError] of [int]; both callers discard it, so its text is
    never observed. *)
Definition int_error (s : string) : exn :=
  ValueError ("invalid literal for int() with base 10: " +:+ s).
Definition overflow_error : exn :=
  OverflowError "integer division result too large for a float".

(** [int(s)] as a statement that may raise *)
Definition int_st {S} (s : string) : ST S Z :=
  St.lift (int_error s) (Num.int s).

(** [[int(x) for x in l]] *)
Fixpoint ints_st {S} (l : list string) : ST S (list Z) :=
  match l with
  | [] => St.ret []
  | x :: l' => n ← int_st x; ns ← ints_st l'; St.ret (n :: ns)
  end.

(** The non-empty comma-separated pieces of the allele-depth text. *)
Definition ad_parts (ad : string) : list string :=
  filter (λ p, p ≠ "") (Py.split "," ad).

(** The [if ad and ad != "."] block of the [try] body. *)
Definition parse_allele_depths (ad : option string) : ST result unit :=
  match ad with
  | Some a =>
      if Py.truthy a && bool_decide (a ≠ ".") then
        let parts := ad_parts a in
        if (2 <=? length parts)%nat then
          alt_depths ← ints_st (filter (λ x, Num.all_digits x) (drop 1 parts));
          match Num.max_list alt_depths with
          | Some alt_max =>
              St.modify (set_ALT_AD_MAX (Some alt_max));;
              r ← St.get;
              match r_DP r with
              | Some dpv =>
                  if bool_decide (dpv ≠ 0) && (0 <? dpv) then
                    q ← St.lift overflow_error (Num.truediv alt_max dpv);
                    St.modify (set_VAF (Some q))
                  else St.ret tt
              | None => St.ret tt
              end
          | None => St.ret tt
          end
        else St.ret tt
      else St.ret tt
  | None => St.ret tt
  end.

(** The body of the [try] block, up to [return result]. *)
Definition parse_format_body (fmt sample : option string) : ST result result :=
  let keys := split_fields fmt in
  let vals := split_fields sample in
  let m := dict (zip keys vals) in
  let gt := m !! "GT" in
  let dp := m !! "DP" in
  let ad := m !! "CLCAD2" in
  St.modify (set_GT gt);;
  d ← match dp with
      | Some s => if bool_decide (s ≠ ".")
                  then (n ← int_st s; St.ret (Some n))
                  else St.ret None
      | None => St.ret None
      end;
  St.modify (set_DP d);;
  St.modify (set_CLCAD2 ad);;
  parse_allele_depths ad;;
  St.get.

(** [parse_format]: the body under [try], [except Exception: return result]. *)
Definition parse_format_st (fmt sample : option string) : ST result result :=
  St.try_except (parse_format_body fmt sample) (λ _, St.get).

(** One call: a fresh [result] dict, then the function's outcome. *)
Definition parse_format (fmt sample : option string) : Res result :=
  snd (parse_format_st fmt sample result_init).

(** ** Records, configuration and the runtime *)

(** The dict appended to [variants] by the reader. *)
Record variant : Type := mkVariant {
  v_sample : string;
  v_chrom : string;
  v_pos : Z;
  v_ref : string;
  v_alt : string;
  v_qual : option float;
  v_filt : string;
  v_dp : option Z;
  v_ad_alt_max : option Z;
  v_vaf : option float
}.

(** The [row] dict built by [process_vcf]. *)
Record row : Type := mkRow {
  row_sample : string;
  row_chrom : string;
  row_pos : Z;
  row_ref : string;
  row_alt : string;
  row_qual : option float;
  row_filter : string;
  row_dp : option Z;
  row_ad_alt_max : option Z;
  row_vaf : option float;
  row_kept : bool;
  row_reason : string
}.

(** [CONFIG] and its per-run copy [cfg].  The panel size is a float, as
    [CONFIG] and the command line make it; the integer thresholds stay
    those of [CONFIG] in every run, far below the digit limit of [str]. *)
Record config : Type := mkConfig {
  panel_name : string;
  panel_mb : float;
  reference : string;
  qual_min : float;
  dp_min : Z;
  alt_min : Z;
  vaf_min : float;
  require_pass : bool;
  drop_str_artifacts : bool
}.

(** A dict appended to [summary_rows]; the keys a branch does not set
    are [None]. *)
Record summary_row : Type := mkSummary {
  s_sample : string;
  s_vcf : string;
  s_panel_name : string;
  s_reference : string;
  s_panel_mb : float;
  s_kept_variants : option nat;
  s_dropped_variants : option nat;
  s_tmb_variants_per_mb : option float;
  s_thresholds : option (float * Z * Z * float * bool * bool);
  s_error : option string
}.

(** What the interpreter, the clock, the operating system and pandas
    provide to the reporter.  They are taken as given: the float builtins
    and the run date as values, each output operation as a function that
    returns or raises. *)
Class Runtime : Type := {
  (** [float(s)]; [None] is [ValueError] *)
  float_of_str : string → option float;
  (** [str(x)] *)
  str_of_float : float → string;
  (** [format(x, ".<n>f")] *)
  format_fixed : nat → float → string;
  (** [round(x, n)] *)
  round_digits : nat → float → float;
  (** [datetime.date.today().isoformat()] *)
  today_isoformat : string;
  (** [os.makedirs(path, exist_ok=True)] *)
  makedirs : string → Res unit;
  (** [with open(path, "w", encoding="utf-8") as w: w.write(text)] *)
  write_text : string → string → Res unit;
  (** [pd]: [None] when pandas could not be imported; otherwise the two
      frames of the summary rows and of the rows, written as the sheets
      "summary" and "variants" of the workbook at the given path *)
  pandas : option (string → list summary_row → list row → Res unit);
  (** [print(text)] *)
  print : string → Res unit
}.

(** 1.20, 50.0 and 0.05 as binary64 values *)
Definition f_1_20 : float := S754_finite false 5404319552844595 (-52).
Definition f_50 : float := S754_finite false 7036874417766400 (-47).
Definition f_0_05 : float := S754_finite false 7205759403792794 (-57).

Definition CONFIG : config :=
  mkConfig "Qiagen/CLC Panel" f_1_20 "hg19" f_50 100 5 f_0_05 true true.

Section Reporter.
Context `{!Runtime}.

Definition safe_float (x : string) : float :=
  match float_of_str x with
  | Some f => f
  | None => Num.nan
  end.

(** *** Filtering and TMB *)

Definition qual_missing (q : option float) : bool :=
  match q with None => true | Some f => Num.isnan f end.

Definition keep_variant (v : variant) (cfg : config) : bool * string :=
  if require_pass cfg
     && negb (bool_decide (v_filt v ∈ ["."; "PASS"]))
  then (false, "FILTER!=PASS")
  else
  match v_qual v with
  | None => (false, "QUAL_missing")
  | Some qual =>
  if Num.isnan qual then (false, "QUAL_missing") else
  match v_dp v with
  | None => (false, "DP_missing")
  | Some dp =>
  match v_ad_alt_max v with
  | None => (false, "AD_alt_missing")
  | Some ad_alt_max =>
  match v_vaf v with
  | None => (false, "VAF_missing")
  | Some vaf =>
  if Num.ltb qual (qual_min cfg)
  then (false, "QUAL<" +:+ str_of_float (qual_min cfg))
  else if dp <? dp_min cfg
  then (false, "DP<" +:+ Num.str_int (dp_min cfg))
  else if ad_alt_max <? alt_min cfg
  then (false, "ALT<" +:+ Num.str_int (alt_min cfg))
  else if Num.ltb vaf (vaf_min cfg)
  then (false, "VAF<" +:+ str_of_float (vaf_min cfg))
  else if drop_str_artifacts cfg
          && looks_like_str_artifact (v_ref v) (v_alt v)
  then (false, "STR_artifact")
  else (true, "OK")
  end end end end.

(** [kept_count] is a list length, far below the range in which
    [float(kept_count)] would raise; [panel_mb] may be [None]. *)
Definition compute_tmb (kept_count : nat) (panel_mb : option float) : float :=
  match panel_mb with
  | Some p =>
      if Num.truthy p && Num.ltb Num.zero p
      then Num.fdiv (Num.of_int (Z.of_nat kept_count)) p
      else Num.nan
  | None => Num.nan
  end.

(** *** Text report *)

(** [os.path.join(a, b)] and [os.path.basename(p)], POSIX flavour *)
Definition path_join (a b : string) : string :=
  if Py.startswith "/" b then b
  else if negb (Py.truthy a) || bool_decide (last (Py.chars a) = Some "/"%char)
       then a +:+ b
       else a +:+ "/" +:+ b.
Definition basename (p : string) : string :=
  default "" (last (Py.split "/" p)).

(** ["\n".join(lines)] *)
Fixpoint join_lines (lines : list string) : string :=
  match lines with
  | [] => ""
  | [l] => l
  | l :: ls => l +:+ Py.nl +:+ join_lines ls
  end.

Definition yes_no (b : bool) : string := if b then "Evet" else "Hayır".

(** [str(x)] for an optional integer *)
Definition str_opt_int (o : option Z) : string :=
  match o with Some n => Num.str_int n | None => "None" end.

(** The line that renders the TMB value. *)
Definition tmb_line (tmb : float) : string :=
  if negb (Num.isnan tmb)
  then "TMB (varyant/Mb): " +:+ format_fixed 2 tmb
  else "TMB: hesaplanamadı (panel_mb eksik)".

(** One line of the listing; formatting a missing [qual] with [.2f]
    raises.  The integers of a row were read by [int], so they are
    within the digit limit of [str]. *)
Definition kept_line (r : row) : Res string :=
  let vaf_str :=
    match row_vaf r with
    | Some vaf => if negb (Num.isnan vaf) then format_fixed 3 vaf else ""
    | None => ""
    end in
  match row_qual r with
  | Some qual =>
      inr (row_chrom r +:+ ":" +:+ Num.str_int (row_pos r) +:+ " "
           +:+ row_ref r +:+ ">" +:+ row_alt r +:+ " | "
           +:+ format_fixed 2 qual +:+ " | " +:+ str_opt_int (row_dp r)
           +:+ " | " +:+ str_opt_int (row_ad_alt_max r) +:+ " | " +:+ vaf_str)
  | None => inl (TypeError "unsupported format string passed to NoneType.__format__")
  end.

Fixpoint kept_lines (rs : list row) : Res (list string) :=
  match rs with
  | [] => inr []
  | r :: rs' => l ← kept_line r; ls ← kept_lines rs'; inr (l :: ls)
  end.

(** The [lines] list of [make_text_report]. *)
Definition report_lines (sample_name : string) (kept : list row)
    (cfg : config) (vcf_path : string) (tmb : float) : Res (list string) :=
  listing ← kept_lines (take 20 kept);
  inr ([ "*** TMB RAPORU ***" +:+ Py.nl;
         "Tarih: " +:+ today_isoformat;
         "Örnek: " +:+ sample_name;
         "VCF: " +:+ vcf_path;
         "Panel: " +:+ panel_name cfg +:+ " (" +:+ reference cfg +:+ ")";
         "Panel boyutu (Mb): " +:+ format_fixed 3 (panel_mb cfg);
         "Filtre Eşikleri: QUAL≥" +:+ str_of_float (qual_min cfg)
           +:+ ", DP≥" +:+ Num.str_int (dp_min cfg)
           +:+ ", ALT≥" +:+ Num.str_int (alt_min cfg)
           +:+ ", VAF≥" +:+ str_of_float (vaf_min cfg);
         "Filter PASS şartı: " +:+ yes_no (require_pass cfg);
         "STR artefakt elemesi: " +:+ yes_no (drop_str_artifacts cfg);
         "";
         "Nitelikli varyant sayısı: " +:+ Num.str_int (Z.of_nat (length kept));
         tmb_line tmb;
         "";
         "Notlar:";
         "- Bu değer panel tabanlı, filtrelenmiş ham TMB'dir. Fonksiyonel anotasyon yoksa benign/silent dışlama yapılamaz.";
         "- Klinik raporlama için laboratuvarınızın doğrulanmış eşiği ve panel kapsamı esas alınmalıdır.";
         "- STR/tekrar bölgelerindeki çağrılar basit sezgisel kuralla elenmiştir.";
         "";
         "İlk 20 nitelikli varyant (CHROM:POS REF>ALT | QUAL | DP | ALT_AD_MAX | VAF):" ]
        ++ listing).

(** The function writes [join_lines lines] to the report path, which
    raises when the file cannot be opened or written, and returns the
    path and the TMB. *)
Definition make_text_report (sample_name : string) (kept dropped : list row)
    (outdir : string) (cfg : config) (vcf_path : string)
  : Res (string * float) :=
  let tmb := compute_tmb (length kept) (Some (panel_mb cfg)) in
  lines ← report_lines sample_name kept cfg vcf_path tmb;
  let report_path := path_join outdir (sample_name +:+ "_TMB_report.txt") in
  write_text report_path (join_lines lines);;
  inr (report_path, tmb).

(** [None] without pandas; otherwise the workbook is written and its
    path returned. *)
Definition write_excel (all_rows : list row) (summary_rows : list summary_row)
    (outdir : string) : Res (option string) :=
  match pandas with
  | None => inr None
  | Some to_excel =>
      let xlsx_path := path_join outdir "tmb_summary_and_variants.xlsx" in
      to_excel xlsx_path summary_rows all_rows;;
      inr (Some xlsx_path)
  end.

(** *** VCF reader *)

(** The files the run can see: the lines of each existing path, each
    line with its line end as the file iterator yields it. *)
Definition filesystem : Type := string → option (list string).

Definition required : list string :=
  ["CHROM"; "POS"; "ID"; "REF"; "ALT"; "QUAL"; "FILTER"].

Definition header_error : exn :=
  ValueError "Beklenen VCF sütunları bulunamadı (#CHROM .. QUAL .. FILTER).".
Definition no_header_error : exn :=
  ValueError "VCF başlığı (#CHROM ...) bulunamadı.".

(** [l.index(x)] for an [x] known to be in [l] *)
Fixpoint index_of (x : string) (l : list string) : nat :=
  match l with
  | [] => 0
  | y :: l' => if bool_decide (y = x) then 0 else S (index_of x l')
  end.

(** The sample column named by a header, if it has one. *)
Definition header_sample (header_cols : list string) : option string :=
  if bool_decide ("FORMAT" ∈ header_cols)
     && (index_of "FORMAT" header_cols + 1 <? length header_cols)%nat
  then last header_cols
  else None.

(** The first loop: [None] when the file ends without a header line. *)
Fixpoint scan_header (lines : list string)
  : Res (option (list string * option string)) :=
  match lines with
  | [] => inr None
  | line :: rest =>
      if Py.startswith "##" line then scan_header rest
      else if Py.startswith "#CHROM" line then
        let header_cols := Py.split Py.tab (Py.lstrip "#" (Py.strip line)) in
        if negb (forallb (λ c, bool_decide (c ∈ header_cols)) required)
        then inl header_error
        else inr (Some (header_cols, header_sample header_cols))
      else scan_header rest
  end.

(** [{name: i for i, name in enumerate(header_cols)}] *)
Definition column_index (header_cols : list string) : gmap string nat :=
  dict (imap (λ i name, (name, i)) header_cols).

(** [bool(sample_name)] *)
Definition has_sample (sample_name : option string) : bool :=
  match sample_name with Some s => Py.truthy s | None => false end.

(** The fields read under [try]; [None] when any of the lookups or
    [int] raised. *)
Definition line_fields (idx : gmap string nat) (sample_name : option string)
    (parts : list string)
  : option (string * Z * string * string * float * string
            * option string * option string) :=
  chrom ← (i ← idx !! "CHROM"; parts !! i);
  pos ← (i ← idx !! "POS"; s ← parts !! i; Num.int s);
  ref ← (i ← idx !! "REF"; parts !! i);
  alt ← (i ← idx !! "ALT"; parts !! i);
  qual ← (i ← idx !! "QUAL"; s ← parts !! i; Some (safe_float s));
  filt ← match idx !! "FILTER" with
         | Some i => parts !! i
         | None => Some "."
         end;
  fmt ← match idx !! "FORMAT" with
        | Some i => s ← parts !! i; Some (Some s)
        | None => Some None
        end;
  sample_col ← match sample_name with
               | Some n => if Py.truthy n
                           then i ← idx !! n; s ← parts !! i; Some (Some s)
                           else Some None
               | None => Some None
               end;
  Some (chrom, pos, ref, alt, qual, filt, fmt, sample_col).

(** [sample_name or os.path.basename(vcf_path)] *)
Definition sample_or_basename (sample_name : option string)
    (vcf_path : string) : string :=
  match sample_name with
  | Some s => if Py.truthy s then s else basename vcf_path
  | None => basename vcf_path
  end.

(** One turn of the second loop: [inr None] for a line that is passed
    over, [inr (Some v)] for an appended record. *)
Definition read_line (header_cols : list string)
    (sample_name : option string) (vcf_path : string) (line : string)
  : Res (option variant) :=
  if negb (Py.truthy line) || Py.startswith "#" line then inr None
  else
    let parts := Py.split Py.tab (Py.rstrip "010" line) in
    let idx := column_index header_cols in
    match line_fields idx sample_name parts with
    | None => inr None
    | Some (chrom, pos, ref, alt, qual, filt, fmt, sample_col) =>
        parsed ← (if has_sample sample_name
                  then parse_format fmt sample_col
                  else inr result_init);
        inr (Some (mkVariant (sample_or_basename sample_name vcf_path)
                     chrom pos ref alt (Some qual) filt
                     (r_DP parsed) (r_ALT_AD_MAX parsed) (r_VAF parsed)))
    end.

Fixpoint read_lines (header_cols : list string) (sample_name : option string)
    (vcf_path : string) (lines : list string) : Res (list variant) :=
  match lines with
  | [] => inr []
  | line :: rest =>
      o ← read_line header_cols sample_name vcf_path line;
      vs ← read_lines header_cols sample_name vcf_path rest;
      inr (match o with Some v => v :: vs | None => vs end)
  end.

Definition read_vcf_variants (fs : filesystem) (vcf_path : string)
  : Res (string * list variant) :=
  match fs vcf_path with
  | None => inl (FileNotFoundError vcf_path)
  | Some lines =>
      h ← scan_header lines;
      match h with
      | None => inl no_header_error
      | Some (header_cols, sample_name) =>
          variants ← read_lines header_cols sample_name vcf_path lines;
          inr (sample_or_basename sample_name vcf_path, variants)
      end
  end.

(** *** Driver *)

Definition make_row (v : variant) (keep : bool) (reason : string) : row :=
  mkRow (v_sample v) (v_chrom v) (v_pos v) (v_ref v) (v_alt v) (v_qual v)
        (v_filt v) (v_dp v) (v_ad_alt_max v) (v_vaf v) keep reason.

(** One turn of the loop of [process_vcf] over [(kept_rows, drop_rows)]. *)
Definition classify_step (cfg : config) (acc : list row * list row)
    (v : variant) : list row * list row :=
  let '(keep, reason) := keep_variant v cfg in
  let row := make_row v keep reason in
  if keep then (acc.1 ++ [row], acc.2) else (acc.1, acc.2 ++ [row]).

Definition classify_all (cfg : config) (variants : list variant)
  : list row * list row :=
  foldl (classify_step cfg) ([], []) variants.

Definition process_vcf (fs : filesystem) (vcf_path outdir : string)
    (cfg : config)
  : Res (string * list row * list row * string * float) :=
  '(sample, variants) ← read_vcf_variants fs vcf_path;
  let '(kept_rows, drop_rows) := classify_all cfg variants in
  '(txt_path, tmb) ←
    make_text_report sample kept_rows drop_rows outdir cfg vcf_path;
  inr (sample, kept_rows, drop_rows, txt_path, tmb).

(** The three lists [main] accumulates. *)
Record batch : Type := mkBatch {
  all_rows : list row;
  summary_rows : list summary_row;
  txt_paths : list string
}.

Definition batch_init : batch := mkBatch [] [] [].

Definition ok_summary (cfg : config) (vcf_path sample : string)
    (kept dropped : list row) (tmb_val : float) : summary_row :=
  mkSummary sample vcf_path (panel_name cfg) (reference cfg) (panel_mb cfg)
    (Some (length kept)) (Some (length dropped))
    (if negb (Num.isnan tmb_val) then Some (round_digits 3 tmb_val) else None)
    (Some (qual_min cfg, dp_min cfg, alt_min cfg, vaf_min cfg,
           require_pass cfg, drop_str_artifacts cfg))
    None.

Definition error_summary (cfg : config) (vcf_path : string) (e : exn)
  : summary_row :=
  mkSummary (basename vcf_path) vcf_path (panel_name cfg) (reference cfg)
    (panel_mb cfg) None None None None (Some (str_exn e)).

Definition add_summary (r : summary_row) (b : batch) : batch :=
  mkBatch (all_rows b) (summary_rows b ++ [r]) (txt_paths b).
Definition add_txt_path (p : string) (b : batch) : batch :=
  mkBatch (all_rows b) (summary_rows b) (txt_paths b ++ [p]).
Definition extend_rows (rs : list row) (b : batch) : batch :=
  mkBatch (all_rows b ++ rs) (summary_rows b) (txt_paths b).

(** The body of the [for vcf_path in args.vcf] loop. *)
Definition main_file (fs : filesystem) (outdir : string) (cfg : config)
    (vcf_path : string) : ST batch unit :=
  St.try_except
    ('(sample, kept, dropped, txt_path, tmb_val) ←
       St.of_res (process_vcf fs vcf_path outdir cfg);
     St.modify (add_txt_path txt_path);;
     St.modify (extend_rows (kept ++ dropped));;
     St.modify (add_summary
                  (ok_summary cfg vcf_path sample kept dropped tmb_val)))
    (λ e, St.modify (add_summary (error_summary cfg vcf_path e))).

Fixpoint main_files (fs : filesystem) (outdir : string) (cfg : config)
    (vcf : list string) : ST batch unit :=
  match vcf with
  | [] => St.ret tt
  | vcf_path :: rest =>
      main_file fs outdir cfg vcf_path;; main_files fs outdir cfg rest
  end.

(** [for pth in txt_paths: print("TXT:", pth)] *)
Fixpoint print_paths (paths : list string) : Res unit :=
  match paths with
  | [] => inr tt
  | pth :: rest => print ("TXT: " +:+ pth);; print_paths rest
  end.

(** The console summary that ends [main]. *)
Definition console_summary (txt_paths : list string)
    (xlsx_path : option string) : Res unit :=
  print "Tamamlandı.";;
  print_paths txt_paths;;
  match xlsx_path with
  | Some p => if Py.truthy p then print ("Excel: " +:+ p) else inr tt
  | None => inr tt
  end.

(** [main] once [args] and [cfg] are settled: the output directory, the
    loop over the inputs, the workbook, the console summary and the exit
    status.  Only the loop body is under [try]. *)
Definition main_run (fs : filesystem) (outdir : string) (cfg : config)
    (vcf : list string) : ST batch Z :=
  St.of_res (makedirs outdir);;
  main_files fs outdir cfg vcf;;
  b ← St.get;
  xlsx_path ← St.of_res (write_excel (all_rows b) (summary_rows b) outdir);
  St.of_res (console_summary (txt_paths b) xlsx_path);;
  St.ret 0.

End Reporter.

(** A runtime for running the model on examples: [float] reads decimal
    integer literals only, the text renderings are left blank, pandas is
    installed and every output operation works. *)
Definition example_runtime : Runtime := {|
  float_of_str s := Num.of_int <$> Num.int s;
  str_of_float _ := "";
  format_fixed _ _ := "";
  round_digits _ x := x;
  today_isoformat := "2025-01-01";
  makedirs _ := inr tt;
  write_text _ _ := inr tt;
  pandas := Some (λ _ _ _, inr tt);
  print _ := inr tt
|}.

(** The same runtime on a system where no report can be written below
    the directory "ro". *)
Definition readonly_runtime : Runtime := {|
  float_of_str := float_of_str (Runtime := example_runtime);
  str_of_float := str_of_float (Runtime := example_runtime);
  format_fixed := format_fixed (Runtime := example_runtime);
  round_digits := round_digits (Runtime := example_runtime);
  today_isoformat := today_isoformat (Runtime := example_runtime);
  makedirs _ := inr tt;
  write_text path _ :=
    if Py.startswith "ro/" path
    then inl (Raised "PermissionError" "[Errno 13] Permission denied")
    else inr tt;
  pandas := None;
  print _ := inr tt
|}.

(** * Closed forms and specification-level definitions *)

(** ** Repeat detectors *)

(** [u * (n // 2) + u[: n % 2]] for a two-character unit *)
Definition tile2 (u : list ascii) (n : nat) : list ascii :=
  Py.mul u (n / 2) ++ take (n mod 2) u.

(** ** Decoder *)

(** [dict(zip(keys, vals))] of the two colon-separated texts *)
Definition fields (fmt sample : option string) : gmap string string :=
  dict (zip (split_fields fmt) (split_fields sample)).

(** The depth entry: [None] when [int] raises, [Some None] when the
    entry is missing or a dot. *)
Definition decode_depth (dp : option string) : option (option Z) :=
  match dp with
  | Some s => if bool_decide (s ≠ ".") then n ← Num.int s; Some (Some n)
              else Some None
  | None => Some None
  end.

(** The depths of the alternate alleles: the digit strings among the
    non-empty entries after the first non-empty one. *)
Definition alt_entries (ad : option string) : list string :=
  match ad with
  | Some a => drop 1 (ad_parts a)
  | None => []
  end.
Definition alt_depths_of (ad : option string) : list Z :=
  omap Num.int (filter (λ x, Num.all_digits x) (alt_entries ad)).

(** One of the digit strings has more digits than [int] takes. *)
Definition over_limit (ad : option string) : bool :=
  existsb (λ x, Num.all_digits x && (Num.max_str_digits <? Py.len x)%nat)
          (alt_entries ad).

Definition fraction (d : option Z) (amax : option Z) : option float :=
  match d, amax with
  | Some dv, Some a => if 0 <? dv then Num.truediv a dv else None
  | _, _ => None
  end.

(** The [result] dict when [parse_format] returns. *)
Definition decoded (fmt sample : option string) : result :=
  let m := fields fmt sample in
  match decode_depth (m !! "DP") with
  | None => mkResult (m !! "GT") None None None None
  | Some d =>
      if over_limit (m !! "CLCAD2")
      then mkResult (m !! "GT") d (m !! "CLCAD2") None None
      else
        let amax := Num.max_list (alt_depths_of (m !! "CLCAD2")) in
        mkResult (m !! "GT") d (m !! "CLCAD2") amax (fraction d amax)
  end.

(** The three ways the [try] block is left by an exception: [int]
    rejects the depth entry, [int] rejects an alternate depth for its
    number of digits, or the quotient is too large for a float. *)
Definition overflows (d amax : option Z) : bool :=
  match d, amax with
  | Some dv, Some a => (0 <? dv) && bool_decide (Num.truediv a dv = None)
  | _, _ => false
  end.
Definition decode_fails (fmt sample : option string) : bool :=
  let m := fields fmt sample in
  match decode_depth (m !! "DP") with
  | None => true
  | Some d =>
      over_limit (m !! "CLCAD2")
      || overflows d (Num.max_list (alt_depths_of (m !! "CLCAD2")))
  end.

(** The allele-depth entries as the specification counts them: every
    comma-separated piece, the first one being the reference depth. *)
Definition stated_alt_depths (ad : option string) : list Z :=
  match ad with
  | Some a => omap Num.int (filter (λ x, Num.all_digits x)
                                   (drop 1 (Py.split "," a)))
  | None => []
  end.

(** The fraction rule as the specification states it, for one input. *)
Definition stated_fraction_rule (fmt sample : option string) : Prop :=
  ∀ r, parse_format fmt sample = inr r →
    r_VAF r
    = fraction (r_DP r)
        (Num.max_list (stated_alt_depths (fields fmt sample !! "CLCAD2"))).

(** The recovery rule as the specification states it, for one input: no
    exception leaves the decoder, and a failure inside it gives back the
    all-absent result. *)
Definition stated_recovery_rule (fmt sample : option string) : Prop :=
  (∃ r, parse_format fmt sample = inr r)
  ∧ ∀ st e, parse_format_body fmt sample result_init = (st, inl e) →
            parse_format fmt sample = inr result_init.

(** ** Reader: columns and example inputs *)

(** The field of a named column on a line *)
Definition col (idx : gmap string nat) (parts : list string) (name : string)
  : option string := i ← idx !! name; parts !! i.

(** A line of tab-separated fields with its line end *)
Fixpoint tab_join (fields : list string) : string :=
  match fields with
  | [] => ""
  | [f] => f
  | f :: rest => f +:+ String Py.tab (tab_join rest)
  end.
Definition tsv (fields : list string) : string := tab_join fields +:+ Py.nl.

(** A file system in which every path holds the given lines *)
Definition one_file (lines : list string) : filesystem := λ _, Some lines.

(** A file with a sample column: one record that passes, one repeat
    artifact, and one line that cannot be read. *)
Definition example_vcf : list string :=
  [tsv ["##fileformat=VCFv4.2"];
   tsv ["#CHROM"; "POS"; "ID"; "REF"; "ALT"; "QUAL"; "FILTER"; "INFO";
        "FORMAT"; "S1"];
   tsv ["chr1"; "100"; "."; "A"; "T"; "80"; "PASS"; "."; "GT:DP:CLCAD2";
        "0/1:150:100,20"];
   tsv ["chr1"; "200"; "."; "A"; "AAAA"; "80"; "PASS"; "."; "GT:DP:CLCAD2";
        "0/1:150:100,20"];
   tsv ["chr2"; "bad"]].

(** A file without FORMAT and sample columns. *)
Definition example_vcf_plain : list string :=
  [tsv ["#CHROM"; "POS"; "ID"; "REF"; "ALT"; "QUAL"; "FILTER"; "INFO"];
   tsv ["chr1"; "100"; "."; "A"; "T"; "80"; "PASS"; "."]].

Definition example_fs : filesystem := λ p,
  if bool_decide (p = "data/good.vcf") then Some example_vcf
  else if bool_decide (p = "data/plain.vcf") then Some example_vcf_plain
  else None.

(** ** Classifier as an ordered list of rules *)

Section Rules.
Context `{!Runtime}.

(** A rule gives the reason it reports when the record fails it. *)
Definition rule : Type := variant → config → option string.

Definition rule_pass : rule := λ v cfg,
  if require_pass cfg && negb (bool_decide (v_filt v ∈ ["."; "PASS"]))
  then Some "FILTER!=PASS" else None.
Definition rule_qual_present : rule := λ v cfg,
  if qual_missing (v_qual v) then Some "QUAL_missing" else None.
Definition rule_dp_present : rule := λ v cfg,
  match v_dp v with None => Some "DP_missing" | Some _ => None end.
Definition rule_ad_present : rule := λ v cfg,
  match v_ad_alt_max v with None => Some "AD_alt_missing" | Some _ => None end.
Definition rule_vaf_present : rule := λ v cfg,
  match v_vaf v with None => Some "VAF_missing" | Some _ => None end.
Definition rule_qual_min : rule := λ v cfg,
  match v_qual v with
  | Some q => if Num.ltb q (qual_min cfg)
              then Some ("QUAL<" +:+ str_of_float (qual_min cfg)) else None
  | None => None
  end.
Definition rule_dp_min : rule := λ v cfg,
  match v_dp v with
  | Some d => if d <? dp_min cfg
              then Some ("DP<" +:+ Num.str_int (dp_min cfg)) else None
  | None => None
  end.
Definition rule_alt_min : rule := λ v cfg,
  match v_ad_alt_max v with
  | Some a => if a <? alt_min cfg
              then Some ("ALT<" +:+ Num.str_int (alt_min cfg)) else None
  | None => None
  end.
Definition rule_vaf_min : rule := λ v cfg,
  match v_vaf v with
  | Some f => if Num.ltb f (vaf_min cfg)
              then Some ("VAF<" +:+ str_of_float (vaf_min cfg)) else None
  | None => None
  end.
Definition rule_repeat : rule := λ v cfg,
  if drop_str_artifacts cfg && looks_like_str_artifact (v_ref v) (v_alt v)
  then Some "STR_artifact" else None.

(** The order of the specification: PASS requirement, missing fields,
    thresholds, repeat heuristic. *)
Definition rules : list rule :=
  [rule_pass;
   rule_qual_present; rule_dp_present; rule_ad_present; rule_vaf_present;
   rule_qual_min; rule_dp_min; rule_alt_min; rule_vaf_min;
   rule_repeat].

(** Evaluation that stops at the first rule that fails. *)
Fixpoint first_failure (rs : list rule) (v : variant) (cfg : config)
  : bool * string :=
  match rs with
  | [] => (true, "OK")
  | r :: rs' =>
      match r v cfg with
      | Some reason => (false, reason)
      | None => first_failure rs' v cfg
      end
  end.

(** ** Reader in closed form *)

(** The line the first loop stops at. *)
Fixpoint header_line (lines : list string) : option string :=
  match lines with
  | [] => None
  | line :: rest =>
      if Py.startswith "##" line then header_line rest
      else if Py.startswith "#CHROM" line then Some line
      else header_line rest
  end.

Definition header_cols_of (line : string) : list string :=
  Py.split Py.tab (Py.lstrip "#" (Py.strip line)).

Definition has_columns (names header_cols : list string) : bool :=
  forallb (λ c, bool_decide (c ∈ header_cols)) names.

(** The six columns the specification calls mandatory. *)
Definition stated_mandatory : list string :=
  ["CHROM"; "POS"; "REF"; "ALT"; "QUAL"; "FILTER"].

Definition is_data_line (line : string) : bool :=
  Py.truthy line && negb (Py.startswith "#" line).

Definition data_parts (line : string) : list string :=
  Py.split Py.tab (Py.rstrip "010" line).

(** The record a line gives, if it gives one. *)
Definition line_record (header_cols : list string)
    (sample_name : option string) (vcf_path : string) (line : string)
  : option variant :=
  if is_data_line line then
    '(chrom, pos, ref, alt, qual, filt, fmt, sample_col) ←
      line_fields (column_index header_cols) sample_name (data_parts line);
    let parsed := if has_sample sample_name
                  then decoded fmt sample_col else result_init in
    Some (mkVariant (sample_or_basename sample_name vcf_path)
            chrom pos ref alt (Some qual) filt
            (r_DP parsed) (r_ALT_AD_MAX parsed) (r_VAF parsed))
  else None.

(** The columns whose field the reader takes from every data line. *)
Definition columns_read (header_cols : list string)
    (sample_name : option string) : list string :=
  ["CHROM"; "POS"; "REF"; "ALT"; "QUAL"]
  ++ (if bool_decide ("FILTER" ∈ header_cols) then ["FILTER"] else [])
  ++ (if bool_decide ("FORMAT" ∈ header_cols) then ["FORMAT"] else [])
  ++ (match sample_name with
      | Some n => if Py.truthy n then [n] else []
      | None => []
      end).

(** A line can be read when each of these columns is a header column
    with a field on the line, and the POS field is an integer literal. *)
Definition readable (header_cols : list string)
    (sample_name : option string) (parts : list string) : Prop :=
  (∀ name, name ∈ columns_read header_cols sample_name →
     ∃ i, column_index header_cols !! name = Some i
          ∧ (i < length parts)%nat)
  ∧ ∃ i s, column_index header_cols !! "POS" = Some i
           ∧ parts !! i = Some s ∧ is_Some (Num.int s).

(** The skipping rule as the specification states it, for one line. *)
Definition stated_skip_rule (header_cols : list string)
    (sample_name : option string) (vcf_path : string) (line : string)
  : Prop :=
  is_data_line line = true →
  (is_Some (line_record header_cols sample_name vcf_path line)
   ↔ length (data_parts line) = length header_cols).

(** The header rule as the specification states it, for one file. *)
Definition stated_header_rule (fs : filesystem) (vcf_path : string) : Prop :=
  ∀ lines line, fs vcf_path = Some lines → header_line lines = Some line →
    ((∃ e, read_vcf_variants fs vcf_path = inl e)
     ↔ has_columns stated_mandatory (header_cols_of line) = false).

(** ** Driver in closed form *)

Definition classify (cfg : config) (v : variant) : row :=
  make_row v (keep_variant v cfg).1 (keep_variant v cfg).2.

(** The text written as the report of a file: empty when a listing line
    cannot be rendered, in which case nothing is written. *)
Definition report_text (sample : string) (kept : list row) (cfg : config)
    (vcf_path : string) : string :=
  match report_lines sample kept cfg vcf_path
          (compute_tmb (length kept) (Some (panel_mb cfg))) with
  | inr lines => join_lines lines
  | inl _ => ""
  end.

(** The path of the report of a sample. *)
Definition report_path (outdir sample : string) : string :=
  path_join outdir (sample +:+ "_TMB_report.txt").

(** What is left of [main] after the loop, on the lists [b]: the
    workbook, the console summary and the status. *)
Definition main_end (outdir : string) (b : batch) : Res Z :=
  xlsx_path ← write_excel (all_rows b) (summary_rows b) outdir;
  console_summary (txt_paths b) xlsx_path;;
  inr 0.

(** The summary row a file gets. *)
Definition summary_of (fs : filesystem) (outdir : string) (cfg : config)
    (vcf_path : string) : summary_row :=
  match process_vcf fs vcf_path outdir cfg with
  | inr (sample, kept, dropped, _, tmb_val) =>
      ok_summary cfg vcf_path sample kept dropped tmb_val
  | inl e => error_summary cfg vcf_path e
  end.

End Rules.

(** 10.0 as a binary64 value *)
Definition f_10 : float := S754_finite false 5629499534213120 (-49).

(** * The command line, the batch lists and the bulk analyzer *)

(** An allele that one of the two detectors flags *)
Definition flagged (allele : string) : bool :=
  is_homopolymer allele || is_dinuc_repeat allele.

(** A float that is a zero, a finite number or an infinity of sign [s] *)
Definition signed (s : bool) (x : float) : Prop :=
  x = S754_zero s ∨ (∃ m e, x = S754_finite s m e) ∨ x = S754_infinity s.

(** The parsed command line ([argparse.Namespace]) *)
Record args : Type := mkArgs {
  a_vcf : option (list string);
  a_outdir : string;
  a_panel_mb : float;
  a_panel_name : string;
  a_reference : string;
  a_no_pass : bool;
  a_no_str : bool
}.

(** [cfg] as [main] builds it from [CONFIG] and the arguments. *)
Definition main_config (a : args) : config :=
  let cfg := CONFIG in
  let cfg := mkConfig (panel_name cfg) (a_panel_mb a) (reference cfg)
               (qual_min cfg) (dp_min cfg) (alt_min cfg) (vaf_min cfg)
               (require_pass cfg) (drop_str_artifacts cfg) in
  let cfg := mkConfig (a_panel_name a) (panel_mb cfg) (reference cfg)
               (qual_min cfg) (dp_min cfg) (alt_min cfg) (vaf_min cfg)
               (require_pass cfg) (drop_str_artifacts cfg) in
  let cfg := mkConfig (panel_name cfg) (panel_mb cfg) (a_reference a)
               (qual_min cfg) (dp_min cfg) (alt_min cfg) (vaf_min cfg)
               (require_pass cfg) (drop_str_artifacts cfg) in
  let cfg := if a_no_pass a
             then mkConfig (panel_name cfg) (panel_mb cfg) (reference cfg)
                    (qual_min cfg) (dp_min cfg) (alt_min cfg) (vaf_min cfg)
                    false (drop_str_artifacts cfg)
             else cfg in
  if a_no_str a
  then mkConfig (panel_name cfg) (panel_mb cfg) (reference cfg)
         (qual_min cfg) (dp_min cfg) (alt_min cfg) (vaf_min cfg)
         (require_pass cfg) false
  else cfg.

Section Further.
Context `{!Runtime}.

(** The reasons a record can be dropped with under a configuration. *)
Definition drop_reasons (cfg : config) : list string :=
  ["FILTER!=PASS"; "QUAL_missing"; "DP_missing"; "AD_alt_missing";
   "VAF_missing";
   "QUAL<" +:+ str_of_float (qual_min cfg);
   "DP<" +:+ Num.str_int (dp_min cfg);
   "ALT<" +:+ Num.str_int (alt_min cfg);
   "VAF<" +:+ str_of_float (vaf_min cfg);
   "STR_artifact"].

(** [main] from the parsed arguments on *)
Definition main_args (fs : filesystem) (a : args) : ST batch Z :=
  main_run fs (a_outdir a) (main_config a) (default [] (a_vcf a)).

(** The rows and the report path a file adds to the batch *)
Definition rows_of (fs : filesystem) (outdir : string) (cfg : config)
    (vcf_path : string) : list row :=
  match process_vcf fs vcf_path outdir cfg with
  | inr (_, kept, dropped, _, _) => kept ++ dropped
  | inl _ => []
  end.
Definition txt_of (fs : filesystem) (outdir : string) (cfg : config)
    (vcf_path : string) : list string :=
  match process_vcf fs vcf_path outdir cfg with
  | inr (_, _, _, txt_path, _) => [txt_path]
  | inl _ => []
  end.

End Further.

(** ** Bulk analyzer (tmb_bulk_analyzer.py) *)

Module Bulk.

(** The test of [count_variants] on one line that is not a comment: the
    line is split as it is, line end included. *)
Definition counted (line : string) : bool :=
  let fields := Py.split Py.tab line in
  if (5 <=? length fields)%nat then
    match fields !! 3%nat, fields !! 4%nat with
    | Some ref, Some alt =>
        ((Py.len ref =? 1)%nat && (Py.len alt =? 1)%nat)
        || ((1 <? Py.len ref)%nat || (1 <? Py.len alt)%nat)
    | _, _ => false
    end
  else false.

(** The loop of [count_variants] over the lines of the opened file. *)
Fixpoint count_lines (lines : list string) (count : nat) : nat :=
  match lines with
  | [] => count
  | line :: rest =>
      if Py.startswith "#" line then count_lines rest count
      else count_lines rest (if counted line then S count else count)
  end.

Definition count_variants (lines : list string) : nat := count_lines lines 0.

End Bulk.

(** * Properties *)

(** ** Running the model *)

Example homopolymer_ex :
  (is_homopolymer "AAA", is_homopolymer "GGGG", is_homopolymer "AG",
   is_homopolymer "") = (true, true, false, false).
Proof. vm_compute. reflexivity. Qed.

Example dinuc_ex :
  (is_dinuc_repeat "ACAC", is_dinuc_repeat "GTGTG", is_dinuc_repeat "ACGT")
  = (true, true, false).
Proof. vm_compute. reflexivity. Qed.

Example int_ex :
  (Num.int "120", Num.int " -7 ", Num.int "1_000", Num.int "x", Num.int "",
   Num.int "1__0", Num.int "+", Num.int "12.5")
  = (Some 120, Some (-7), Some 1000, None, None, None, None, None).
Proof. vm_compute. reflexivity. Qed.

(** The separator 28 is dropped by [str.strip] but refused by [int]. *)
Example int_separator_ex :
  (Py.strip (String "028" "7"), Num.int (String "028" "7"),
   Num.int (String "011" "7"))
  = ("7", None, Some 7).
Proof. vm_compute. reflexivity. Qed.

(** 4300 digits are taken, 4301 are not, leading zeros counted. *)
Example int_limit_ex :
  (bool_decide (is_Some (Num.int (Py.str (replicate 4300 "1"%char)))),
   Num.int (Py.str (replicate 4301 "1"%char)),
   Num.int (Py.str (replicate 4300 "0"%char ++ ["5"%char])))
  = (true, None, None).
Proof. vm_compute. reflexivity. Qed.

Example truediv_ex :
  (Num.truediv 1 2, Num.truediv 0 5, Num.truediv 3 0,
   Num.truediv (10 ^ 400) 1)
  = (Some (S754_finite false 4503599627370496 (-53)), Some (S754_zero false),
     None, None).
Proof. vm_compute. reflexivity. Qed.

Example parse_format_ex :
  parse_format (Some "GT:DP:CLCAD2") (Some "0/1:120:60,40")
  = inr (mkResult (Some "0/1") (Some 120) (Some "60,40") (Some 40)
                  (Num.truediv 40 120)).
Proof. vm_compute. reflexivity. Qed.

Example parse_format_bad_depth :
  parse_format (Some "GT:DP:CLCAD2") (Some "0/1:x:60,40")
  = inr (mkResult (Some "0/1") None None None None).
Proof. vm_compute. reflexivity. Qed.

(** An alternate depth of 4301 digits: [int] raises in the
    comprehension, after depth and allele-depth text were stored. *)
Example parse_format_long_depth :
  let ad := "60," +:+ Py.str (replicate 4301 "7"%char) in
  parse_format (Some "GT:DP:CLCAD2") (Some ("0/1:120:" +:+ ad))
  = inr (mkResult (Some "0/1") (Some 120) (Some ad) None None).
Proof. vm_compute. reflexivity. Qed.

(** An alternate depth of 10^400 on depth 1: the division raises, after
    the maximum was stored. *)
Example parse_format_overflow :
  let ad := "0,1" +:+ Py.str (replicate 400 "0"%char) in
  parse_format (Some "GT:DP:CLCAD2") (Some ("0/1:1:" +:+ ad))
  = inr (mkResult (Some "0/1") (Some 1) (Some ad) (Some (10 ^ 400)) None).
Proof. vm_compute. reflexivity. Qed.


(** ** Strings as character lists *)

Lemma truthy_chars (s : string) : Py.truthy s = true ↔ Py.chars s ≠ [].
Proof. destruct s; simpl; split; (done || congruence). Qed.

Lemma chars_nil (s : string) : Py.chars s = [] ↔ s = EmptyString.
Proof. destruct s; simpl; split; (done || congruence). Qed.

Lemma chars_str (l : list ascii) : Py.chars (Py.str l) = l.
Proof. apply String.list_ascii_of_string_of_list_ascii. Qed.

Lemma str_chars (s : string) : Py.str (Py.chars s) = s.
Proof. apply String.string_of_list_ascii_of_string. Qed.

(** ** Repeat detectors *)

Lemma len_set_one (l : list ascii) :
  Py.len_set l = 1%nat ↔ l ≠ [] ∧ ∀ c d, c ∈ l → d ∈ l → c = d.
Proof.
  unfold Py.len_set. split.
  - intros Hsz. split.
    + intros ->. vm_compute in Hsz. discriminate.
    + intros c d Hc Hd.
      apply (size_singleton_inv (list_to_set l : gset ascii)); auto;
        by apply elem_of_list_to_set.
  - intros [Hne Hall]. destruct l as [|c l']; [done|].
    assert ((list_to_set (c :: l') : gset ascii) = {[c]}) as ->.
    { apply set_eq. intros x. rewrite elem_of_list_to_set, elem_of_singleton.
      split; [|intros ->; left].
      intros Hx. apply Hall; [done|left]. }
    apply size_singleton.
Qed.

Lemma mul_S {A} (u : list A) (k : nat) : Py.mul u (S k) = u ++ Py.mul u k.
Proof. reflexivity. Qed.

Lemma mul_lookup (a b : ascii) (k i : nat) :
  (i < 2 * k)%nat → Py.mul [a; b] k !! i = [a; b] !! (i mod 2)%nat.
Proof.
  revert i. induction k as [|k IH]; intros i Hi; [lia|].
  rewrite mul_S. destruct i as [|[|i]]; [done..|].
  replace (S (S i) mod 2)%nat with (i mod 2)%nat.
  - rewrite <- IH by lia. done.
  - replace (S (S i)) with (i + 1 * 2)%nat by lia. by rewrite Nat.Div0.mod_add.
Qed.

Lemma mul_length {A} (u : list A) (k : nat) :
  length (Py.mul u k) = (k * length u)%nat.
Proof.
  induction k as [|k IH]; [done|]. rewrite mul_S, length_app, IH. lia.
Qed.

Lemma tile2_length (a b : ascii) (n : nat) : length (tile2 [a; b] n) = n.
Proof.
  unfold tile2. rewrite length_app, mul_length, length_take.
  change (length [a; b]) with 2%nat.
  pose proof (Nat.div_mod_eq n 2). pose proof (Nat.mod_upper_bound n 2). lia.
Qed.

Lemma tile2_lookup (a b : ascii) (n i : nat) :
  (i < n)%nat → tile2 [a; b] n !! i = [a; b] !! (i mod 2)%nat.
Proof.
  intros Hi. unfold tile2.
  pose proof (Nat.div_mod_eq n 2) as Hn.
  pose proof (Nat.mod_upper_bound n 2 ltac:(lia)) as Hr.
  destruct (decide (i < 2 * (n / 2))%nat) as [Hlt|Hge].
  - rewrite lookup_app_l
      by (rewrite mul_length; change (length [a; b]) with 2%nat; lia).
    by apply mul_lookup.
  - rewrite lookup_app_r
      by (rewrite mul_length; change (length [a; b]) with 2%nat; lia).
    rewrite mul_length. change (length [a; b]) with 2%nat.
    assert (i = 2 * (n / 2))%nat as Hi2 by lia.
    assert (n mod 2 = 1)%nat as -> by lia.
    replace (i - n / 2 * 2)%nat with 0%nat by lia.
    rewrite Hi2. replace (2 * (n / 2))%nat with (0 + (n / 2) * 2)%nat by lia.
    by rewrite Nat.Div0.mod_add.
Qed.

Lemma tile2_periodic (l : list ascii) :
  (2 ≤ length l)%nat →
  l = tile2 (take 2 l) (length l)
  ↔ ∀ i c, l !! i = Some c → l !! (i mod 2)%nat = Some c.
Proof.
  intros Hlen. destruct l as [|a [|b l']]; simpl in Hlen; try lia.
  change (take 2 (a :: b :: l')) with [a; b].
  set (l := a :: b :: l').
  assert (∀ j, (j < 2)%nat → l !! j = [a; b] !! j) as Hhead.
  { intros [|[|j]] ?; (done || lia). }
  split.
  - intros Heq i c Hic.
    assert (i < length l)%nat as Hi by (by eapply lookup_lt_Some).
    rewrite Hhead by (apply Nat.mod_upper_bound; lia).
    rewrite <- (tile2_lookup a b (length l) i Hi). by rewrite <- Heq.
  - intros Hper. apply list_eq. intros i.
    destruct (decide (i < length l)%nat) as [Hi|Hi].
    + rewrite tile2_lookup by done.
      destruct (lookup_lt_is_Some_2 l i Hi) as [c Hc].
      rewrite Hc. rewrite <- Hhead by (apply Nat.mod_upper_bound; lia).
      symmetry. by apply Hper.
    + rewrite !lookup_ge_None_2; [done| |lia].
      rewrite tile2_length. lia.
Qed.

(** C2: the homopolymer detector holds exactly for the non-empty strings
    of length at least 3 whose characters are all the same; the
    dinucleotide detector holds exactly for the strings of length at
    least 4 in which every character equals the one at the same parity
    among the first two, a trailing half unit included.  "AAA", "GGGG",
    "ACAC" and "GTGTG" are flagged; "AG", "" and "ACGT" are not. *)
Theorem repeat_detectors_spec (s : string) :
  (is_homopolymer s = true
   ↔ s ≠ EmptyString
     ∧ (∀ c d, c ∈ Py.chars s → d ∈ Py.chars s → c = d)
     ∧ (3 ≤ Py.len s)%nat)
  ∧ (is_dinuc_repeat s = true
     ↔ (4 ≤ Py.len s)%nat
       ∧ ∀ i c, Py.chars s !! i = Some c
                → Py.chars s !! (i mod 2)%nat = Some c)
  ∧ (is_homopolymer "AAA" = true ∧ is_homopolymer "GGGG" = true
     ∧ is_dinuc_repeat "ACAC" = true ∧ is_dinuc_repeat "GTGTG" = true
     ∧ is_homopolymer "AG" = false ∧ is_homopolymer "" = false
     ∧ is_dinuc_repeat "AG" = false ∧ is_dinuc_repeat "" = false
     ∧ is_dinuc_repeat "ACGT" = false).
Proof.
  split; [|split].
  - unfold is_homopolymer.
    destruct (Py.truthy s) eqn:Ht; cbn [negb].
    + rewrite andb_true_iff, bool_decide_eq_true, Nat.leb_le, len_set_one.
      apply truthy_chars in Ht. rewrite <- chars_nil. tauto.
    + split; [done|]. intros (Hne & _ & _).
      assert (Py.truthy s = true) as Ht'; [|congruence].
      apply truthy_chars. by rewrite chars_nil.
  - unfold is_dinuc_repeat, Py.len.
    destruct (Py.truthy s) eqn:Ht; cbn [negb orb].
    + destruct (Nat.ltb_spec (length (Py.chars s)) 4) as [Hlt|Hge].
      * split; [done|]. lia.
      * rewrite bool_decide_eq_true.
        fold (tile2 (take 2 (Py.chars s)) (length (Py.chars s))).
        rewrite tile2_periodic by lia. tauto.
    + split; [done|]. intros [Hlen _]. destruct s; simpl in *; [lia|done].
  - vm_compute. tauto.
Qed.

Lemma repeat_detectors_spec_witness : is_dinuc_repeat "GTGTG" = true.
Proof.
  apply (proj1 (proj2 (repeat_detectors_spec "GTGTG"))).
  split; [vm_compute; lia|].
  intros [|[|[|[|[|i]]]]] c; simpl; intros Hc; (assumption || discriminate Hc).
Defined.

(** ** Integer literals *)

Lemma isdigit_not_space c : Py.isdigit c = true → Num.isspace c = false.
Proof.
  unfold Py.isdigit, Num.isspace. generalize (nat_of_ascii c). intros n.
  rewrite andb_true_iff, !Nat.leb_le. intros [??].
  apply orb_false_iff. split.
  - apply andb_false_iff. rewrite !Nat.leb_gt. lia.
  - apply Nat.eqb_neq. lia.
Qed.

(** White space for [int] is white space for [str.strip]; the converse
    fails at the separators 28..31. *)
Lemma int_space_is_space c : Num.isspace c = true → Py.isspace c = true.
Proof.
  unfold Py.isspace, Num.isspace. generalize (nat_of_ascii c). intros n.
  rewrite !orb_true_iff, !andb_true_iff, !Nat.leb_le, Nat.eqb_eq. lia.
Qed.

Lemma isdigit_not_sign c :
  Py.isdigit c = true → c ≠ "-"%char ∧ c ≠ "+"%char ∧ c ≠ "_"%char.
Proof. intros H. repeat split; intros ->; vm_compute in H; discriminate. Qed.

Lemma digits_go_digits l acc b :
  forallb Py.isdigit l = true → (l ≠ [] ∨ b = true) →
  is_Some (Num.digits_go acc b l).
Proof.
  revert acc b. induction l as [|c l IH]; intros acc b Hall Hne; simpl.
  - destruct Hne as [?| ->]; [done|eauto].
  - simpl in Hall. apply andb_true_iff in Hall as [Hc Hl]. rewrite Hc.
    apply IH; auto.
Qed.

Lemma count_digits_all l :
  forallb Py.isdigit l = true → Num.count_digits l = length l.
Proof.
  unfold Num.count_digits. induction l as [|c l IH]; [done|]. simpl.
  intros [Hc Hl]%andb_true_iff. rewrite filter_cons_True by done.
  simpl. by rewrite IH.
Qed.

Lemma lstrip_by_head p c l : p c = false → Py.lstrip_by p (c :: l) = c :: l.
Proof. intros H. simpl. by rewrite H. Qed.

Lemma rstrip_by_digits l :
  l ≠ [] → forallb Py.isdigit l = true → Py.rstrip_by Num.isspace l = l.
Proof.
  intros Hne Hall. unfold Py.rstrip_by.
  destruct (reverse l) as [|c r] eqn:Hr.
  { apply (f_equal reverse) in Hr. rewrite reverse_involutive in Hr. done. }
  assert (Py.isdigit c = true) as Hc.
  { rewrite forallb_forall in Hall. apply Hall. apply list_elem_of_In.
    apply elem_of_reverse. rewrite Hr. left. }
  rewrite lstrip_by_head by (by apply isdigit_not_space).
  rewrite <- Hr. apply reverse_involutive.
Qed.

(** [int] on a digit string is the literal itself. *)
Lemma int_digit_string s :
  Num.all_digits s = true → Num.int s = Num.literal (Py.chars s).
Proof.
  unfold Num.all_digits, Num.int. rewrite andb_true_iff. intros [Ht Hall].
  apply truthy_chars in Ht.
  destruct (Py.chars s) as [|c l] eqn:Hs; [done|].
  assert (Py.isdigit c = true) as Hc
    by (simpl in Hall; by apply andb_true_iff in Hall as [? _]).
  rewrite lstrip_by_head by (by apply isdigit_not_space).
  rewrite rstrip_by_digits by done.
  destruct (isdigit_not_sign c Hc) as (? & ? & _).
  by rewrite !bool_decide_eq_false_2 by done.
Qed.

(** A digit string is an integer literal exactly when it is within the
    digit limit. *)
Lemma int_all_digits s :
  Num.all_digits s = true →
  (is_Some (Num.int s) ↔ (Py.len s ≤ Num.max_str_digits)%nat).
Proof.
  intros Hd. rewrite int_digit_string by done.
  unfold Num.all_digits in Hd. apply andb_true_iff in Hd as [Ht Hall].
  unfold Num.literal, Py.len. rewrite count_digits_all by done.
  destruct (Nat.ltb_spec Num.max_str_digits (length (Py.chars s))).
  - split; [by intros [? ?]|lia].
  - split; [lia|]. intros _. apply digits_go_digits; [done|].
    left. by apply truthy_chars.
Qed.

Lemma over_limit_false (ad : option string) :
  over_limit ad = false
  ↔ Forall (λ x, is_Some (Num.int x))
           (filter (λ x, Num.all_digits x) (alt_entries ad)).
Proof.
  unfold over_limit. generalize (alt_entries ad). intros l.
  induction l as [|x l IH]; [done|]. cbn [existsb].
  rewrite orb_false_iff, IH, filter_cons.
  destruct (Num.all_digits x) eqn:Hx; cbn [andb].
  - rewrite decide_True by done. rewrite Forall_cons.
    rewrite (int_all_digits x Hx), Nat.ltb_ge. done.
  - rewrite decide_False by (by intros ?). tauto.
Qed.

Lemma over_limit_true (ad : option string) :
  over_limit ad = true
  ↔ ∃ x, x ∈ alt_entries ad ∧ Num.all_digits x = true
         ∧ (Num.max_str_digits < Py.len x)%nat.
Proof.
  unfold over_limit. rewrite existsb_exists. split.
  - intros (x & Hin%list_elem_of_In & [Hd Hl%Nat.ltb_lt]%andb_true_iff).
    eauto.
  - intros (x & Hin%list_elem_of_In & Hd & Hl%Nat.ltb_lt).
    exists x. by rewrite Hd, Hl.
Qed.

(** The comprehension over the digit strings: every one is converted,
    or the first one over the digit limit raises. *)
Lemma ints_st_digits {S} (l : list string) (s : S) :
  Forall (λ x, is_Some (Num.int x)) l →
  ints_st l s = (s, inr (omap Num.int l)).
Proof.
  induction 1 as [|x l [n Hn] _ IH]; [done|].
  cbn [ints_st omap list_omap]. rewrite Hn. simpl.
  unfold mbind, ST_bind, St.bind, int_st. rewrite Hn. simpl.
  by rewrite IH.
Qed.

Lemma ints_st_raises {S} (l : list string) (s : S) :
  ¬ Forall (λ x, is_Some (Num.int x)) l →
  ∃ e, ints_st l s = (s, inl e).
Proof.
  induction l as [|x l IH]; intros Hn; [by destruct Hn|].
  cbn [ints_st]. unfold mbind, ST_bind, St.bind, int_st.
  destruct (Num.int x) as [n|] eqn:Hx; simpl; [|eauto].
  destruct IH as [e He].
  { intros Hl. apply Hn. constructor; [eauto|done]. }
  fold (@ints_st S). rewrite He. eauto.
Qed.

Lemma alt_entries_short (a : string) :
  (length (ad_parts a) < 2)%nat → alt_entries (Some a) = [].
Proof.
  unfold alt_entries. intros H.
  destruct (ad_parts a) as [|x [|y l]]; simpl in *; (done || lia).
Qed.

Lemma parse_allele_depths_run (ad : option string) (r : result) :
  r_ALT_AD_MAX r = None → r_VAF r = None →
  let amax := Num.max_list (alt_depths_of ad) in
  ∃ o, parse_allele_depths ad r
       = (if over_limit ad then r
          else mkResult (r_GT r) (r_DP r) (r_CLCAD2 r) amax
                 (fraction (r_DP r) amax), o)
       ∧ match o with
         | inl _ => over_limit ad || overflows (r_DP r) amax = true
         | inr _ => over_limit ad || overflows (r_DP r) amax = false
         end.
Proof.
  destruct r as [gt d cl am vf]. simpl. intros -> ->.
  assert (alt_entries ad = [] →
    ∃ o, (mkResult gt d cl None None, inr tt : Res unit)
         = (if over_limit ad then mkResult gt d cl None None
            else mkResult gt d cl (Num.max_list (alt_depths_of ad))
                   (fraction d (Num.max_list (alt_depths_of ad))), o)
         ∧ match o with
           | inl _ => over_limit ad
                      || overflows d (Num.max_list (alt_depths_of ad)) = true
           | inr _ => over_limit ad
                      || overflows d (Num.max_list (alt_depths_of ad)) = false
           end) as Hnone.
  { intros Hnil. unfold over_limit, alt_depths_of. rewrite Hnil. simpl.
    exists (inr tt). by destruct d. }
  destruct ad as [a|]; [|by apply Hnone].
  unfold parse_allele_depths.
  destruct (Py.truthy a) eqn:Ht; cbn [andb].
  2:{ apply Hnone. destruct a; [done|discriminate]. }
  case_bool_decide as Hdot.
  2:{ apply Hnone. by subst a. }
  destruct (Nat.leb_spec 2 (length (ad_parts a))) as [Hlen|Hlen].
  2:{ apply Hnone. by apply alt_entries_short. }
  unfold mbind at 1, ST_bind at 1, St.bind at 1.
  change (drop 1 (ad_parts a)) with (alt_entries (Some a)).
  destruct (over_limit (Some a)) eqn:Hover.
  - destruct (ints_st_raises
                (filter (λ x, Num.all_digits x) (alt_entries (Some a)))
                (mkResult gt d cl None None)) as [e He].
    { intros Hall%over_limit_false. congruence. }
    rewrite He. by exists (inl e).
  - apply over_limit_false in Hover. rewrite ints_st_digits by done.
    unfold alt_depths_of.
    destruct (Num.max_list _) as [amax|]; [|exists (inr tt); by destruct d].
    destruct d as [dv|]; [|by exists (inr tt)].
    unfold mbind, ST_bind, St.bind, St.modify, St.get, St.lift, fraction,
      overflows.
    cbn [r_DP set_ALT_AD_MAX orb].
    destruct (Z.ltb_spec 0 dv) as [Hpos|Hnpos].
    + rewrite bool_decide_eq_true_2 by lia. cbn [andb].
      destruct (Num.truediv amax dv) as [q|].
      * exists (inr tt). split; [done|]. by rewrite bool_decide_eq_false_2.
      * exists (inl overflow_error). split; [done|].
        by rewrite bool_decide_eq_true_2.
    + rewrite andb_false_r. by exists (inr tt).
Qed.

Lemma parse_format_body_run (fmt sample : option string) :
  ∃ o, parse_format_body fmt sample result_init = (decoded fmt sample, o)
       ∧ match o with
         | inr r => r = decoded fmt sample ∧ decode_fails fmt sample = false
         | inl e => decode_fails fmt sample = true
         end.
Proof.
  unfold parse_format_body, decoded, decode_fails.
  fold (fields fmt sample).
  generalize (fields fmt sample !! "GT") (fields fmt sample !! "DP")
             (fields fmt sample !! "CLCAD2").
  intros gt dp ad.
  set (amax := Num.max_list (alt_depths_of ad)).
  set (res := λ d, if over_limit ad then mkResult gt d ad None None
                   else mkResult gt d ad amax (fraction d amax)).
  assert (∀ d,
    ∃ o, (St.modify (set_DP d);; St.modify (set_CLCAD2 ad);;
          parse_allele_depths ad;; St.get) (set_GT gt result_init)
         = (res d, o)
       ∧ match o with
         | inr r => r = res d ∧ over_limit ad || overflows d amax = false
         | inl e => over_limit ad || overflows d amax = true
         end) as Hrest.
  { intros d.
    destruct (parse_allele_depths_run ad (mkResult gt d ad None None))
      as (o & Hrun & Ho); [done..|].
    cbn [r_GT r_DP r_CLCAD2] in Hrun, Ho. fold amax in Hrun, Ho.
    fold (res d) in Hrun.
    unfold mbind, ST_bind, St.bind, St.modify, St.get.
    unfold set_CLCAD2, set_DP, set_GT, result_init.
    cbn [r_GT r_DP r_CLCAD2 r_ALT_AD_MAX r_VAF].
    rewrite Hrun. destruct o as [e|[]].
    - by exists (inl e).
    - eexists (inr _). split; [reflexivity|]. done. }
  destruct dp as [s|]; simpl.
  - case_bool_decide as Hdot; simpl.
    + destruct (Num.int s) as [n|] eqn:Hn; simpl.
      * destruct (Hrest (Some n)) as (o & Ho & Hm).
        exists o. split; [|done].
        unfold mbind, ST_bind, St.bind, St.modify, int_st in *. simpl in *.
        rewrite Hn. simpl. done.
      * eexists. split; [|].
        { unfold mbind, ST_bind, St.bind, St.modify, int_st. simpl.
          rewrite Hn. simpl. reflexivity. }
        done.
    + destruct (Hrest None) as (o & Ho & Hm).
      exists o. split; [|done]. exact Ho.
  - destruct (Hrest None) as (o & Ho & Hm).
    exists o. split; [|done]. exact Ho.
Qed.

Lemma parse_format_decoded (fmt sample : option string) :
  parse_format fmt sample = inr (decoded fmt sample).
Proof.
  unfold parse_format, parse_format_st, St.try_except.
  destruct (parse_format_body_run fmt sample) as (o & -> & Ho).
  destruct o as [e|r]; simpl; [done|]. by destruct Ho as [-> _].
Qed.

(** ** Genotype field decoder *)

Lemma foldl_max_spec (l : list Z) (x : Z) :
  (foldl Z.max x l = x ∨ foldl Z.max x l ∈ l)
  ∧ x ≤ foldl Z.max x l
  ∧ ∀ y, y ∈ l → y ≤ foldl Z.max x l.
Proof.
  revert x. induction l as [|z l IH]; intros x; simpl.
  - split; [by left|]. split; [lia|]. intros y Hy. by apply elem_of_nil in Hy.
  - destruct (IH (Z.max x z)) as (Hin & Hle & Hub).
    split; [|split].
    + destruct Hin as [Heq|Hin]; [|right; by right].
      rewrite Heq.
      destruct (Z.max_spec x z) as [[_ ->]|[_ ->]]; [right; left|by left].
    + lia.
    + intros y [->|Hy]%elem_of_cons; [lia|by apply Hub].
Qed.

Lemma max_list_spec (l : list Z) (a : Z) :
  Num.max_list l = Some a ↔ a ∈ l ∧ ∀ y, y ∈ l → y ≤ a.
Proof.
  destruct l as [|x l]; simpl.
  - split; [done|]. intros [H _]. by apply elem_of_nil in H.
  - destruct (foldl_max_spec l x) as (Hin & Hle & Hub). split.
    + intros [= <-]. split.
      * destruct Hin as [->|Hin]; [left|by right].
      * intros y [->|Hy]%elem_of_cons; [done|by apply Hub].
    + intros [Ha Hmax]. f_equal. apply Z.le_antisymm.
      * apply Hmax. destruct Hin as [->|Hin]; [left|by right].
      * apply elem_of_cons in Ha as [->|Ha]; [done|by apply Hub].
Qed.

Lemma alt_depths_entry (ad : option string) (a : Z) :
  a ∈ alt_depths_of ad →
  ∃ x, x ∈ alt_entries ad ∧ Num.all_digits x = true ∧ Num.int x = Some a.
Proof.
  unfold alt_depths_of. intros (x & Hx & Hint)%list_elem_of_omap.
  apply list_elem_of_filter in Hx as [Hd Hin].
  exists x. split; [done|]. split; [by apply Is_true_true|done].
Qed.

Lemma fraction_Some (d amax : option Z) (q : float) :
  fraction d amax = Some q
  ↔ ∃ dv a, d = Some dv ∧ 0 < dv ∧ amax = Some a ∧ Num.truediv a dv = Some q.
Proof.
  unfold fraction. split.
  - destruct d as [dv|]; [|done]. destruct amax as [a|]; [|done].
    destruct (Z.ltb_spec 0 dv); [|done]. intros Hq. by exists dv, a.
  - intros (dv & a & -> & Hpos & -> & Hq).
    by destruct (Z.ltb_spec 0 dv); [|lia].
Qed.

Lemma decoded_VAF (fmt sample : option string) :
  r_VAF (decoded fmt sample)
  = if over_limit (fields fmt sample !! "CLCAD2") then None
    else fraction (r_DP (decoded fmt sample))
           (Num.max_list (alt_depths_of (fields fmt sample !! "CLCAD2"))).
Proof.
  unfold decoded. destruct (decode_depth _); [|by destruct (over_limit _)].
  by destruct (over_limit _).
Qed.

Lemma within_limit (ad : option string) :
  over_limit ad = false
  ↔ ∀ x, x ∈ alt_entries ad → Num.all_digits x = true →
         (Py.len x ≤ Num.max_str_digits)%nat.
Proof.
  split.
  - intros Hover x Hin Hd.
    destruct (decide (Py.len x ≤ Num.max_str_digits)%nat) as [|Hgt]; [done|].
    assert (over_limit ad = true) as Ht; [|congruence].
    apply over_limit_true. exists x. repeat split; [done..|lia].
  - intros Hall. destruct (over_limit ad) eqn:Hover; [|done].
    apply over_limit_true in Hover as (x & Hin & Hd & Hlen).
    specialize (Hall x Hin Hd). lia.
Qed.

(** C3: the decoder always returns, and the fraction it returns is
    present, with value [q], exactly when the parsed depth is greater
    than 0, some entry after the first non-empty entry of the
    allele-depth text is a digit string, no such digit string has more
    digits than [int] takes, and the quotient of the greatest such depth
    by the parsed depth is a float [q]; the empty entries are dropped
    before the first entry is set aside as the reference depth.  Depth
    120 with allele depths "60,40" gives the maximum 40 and the fraction
    40/120. *)
Theorem vaf_exactly_when (fmt sample : option string) :
  (∃ r, parse_format fmt sample = inr r
     ∧ ∀ q, r_VAF r = Some q
       ↔ ∃ d a,
           r_DP r = Some d ∧ 0 < d
           ∧ (∃ x, x ∈ alt_entries (fields fmt sample !! "CLCAD2")
                   ∧ Num.all_digits x = true)
           ∧ (∀ x, x ∈ alt_entries (fields fmt sample !! "CLCAD2") →
                   Num.all_digits x = true →
                   (Py.len x ≤ Num.max_str_digits)%nat)
           ∧ a ∈ alt_depths_of (fields fmt sample !! "CLCAD2")
           ∧ (∀ y, y ∈ alt_depths_of (fields fmt sample !! "CLCAD2") → y ≤ a)
           ∧ Num.truediv a d = Some q)
  ∧ parse_format (Some "GT:DP:CLCAD2") (Some "0/1:120:60,40")
    = inr (mkResult (Some "0/1") (Some 120) (Some "60,40") (Some 40)
             (Some (S754_finite false 6004799503160661 (-54))))
  ∧ Num.truediv 40 120 = Some (S754_finite false 6004799503160661 (-54)).
Proof.
  split; [|split; vm_compute; reflexivity].
  exists (decoded fmt sample). split; [apply parse_format_decoded|].
  intros q. rewrite decoded_VAF. split.
  - destruct (over_limit _) eqn:Hover; [done|].
    intros (dv & a & Hd & Hpos & Hmax & Hq)%fraction_Some. exists dv, a.
    pose proof Hmax as Hmax'. apply max_list_spec in Hmax' as [Hin Hub].
    repeat split; try done.
    + apply alt_depths_entry in Hin as (x & ? & ? & _). eauto.
    + by apply within_limit.
  - intros (dv & a & Hd & Hpos & _ & Hlim%within_limit & Hin & Hub & Hq).
    rewrite Hlim. apply fraction_Some. exists dv, a.
    repeat split; try done. by apply max_list_spec.
Qed.

Lemma vaf_exactly_when_witness :
  ∃ r, parse_format (Some "DP:CLCAD2") (Some "120:60,40") = inr r
       ∧ r_VAF r = Some (S754_finite false 6004799503160661 (-54)).
Proof.
  destruct (proj1 (vaf_exactly_when (Some "DP:CLCAD2") (Some "120:60,40")))
    as (r & Hr & Hiff).
  exists r. split; [exact Hr|]. apply Hiff.
  assert (r = mkResult None (Some 120) (Some "60,40") (Some 40)
                (Some (S754_finite false 6004799503160661 (-54)))) as ->.
  { assert (inr r = (inr (mkResult None (Some 120) (Some "60,40") (Some 40)
                (Some (S754_finite false 6004799503160661 (-54))))
              : Res result)) as Heq.
    { rewrite <- Hr. vm_compute. reflexivity. }
    by injection Heq. }
  assert (alt_entries (fields (Some "DP:CLCAD2") (Some "120:60,40")
                         !! "CLCAD2") = ["40"]) as Hentries
    by (vm_compute; reflexivity).
  assert (alt_depths_of (fields (Some "DP:CLCAD2") (Some "120:60,40")
                           !! "CLCAD2") = [40]) as Halts
    by (vm_compute; reflexivity).
  rewrite Hentries, Halts.
  exists 120, 40. simpl. split; [done|]. split; [lia|]. split; [|split].
  - exists "40". split; [left|vm_compute; reflexivity].
  - intros x ->%list_elem_of_singleton _.
    apply Nat.leb_le. vm_compute. reflexivity.
  - split; [left|]. split; [|vm_compute; reflexivity].
    intros y ->%list_elem_of_singleton. lia.
Defined.

(** With depth 120 and allele depths ",40" the entry after the first
    comma is numeric, yet the decoder leaves the fraction absent. *)
Lemma vaf_rule_as_stated_fails :
  ¬ stated_fraction_rule (Some "DP:CLCAD2") (Some "120:,40").
Proof.
  intros H.
  specialize (H _ (parse_format_decoded (Some "DP:CLCAD2") (Some "120:,40"))).
  vm_compute in H. discriminate H.
Qed.

(** The [try] block is left by an exception exactly when the closed
    form says so. *)
Lemma parse_format_body_raises (fmt sample : option string) :
  decode_fails fmt sample = true →
  ∃ e, parse_format_body fmt sample result_init
       = (decoded fmt sample, inl e).
Proof.
  intros Hfail. destruct (parse_format_body_run fmt sample) as (o & Hrun & Ho).
  destruct o as [e|r]; [eauto|]. destruct Ho as [_ Ho]. congruence.
Qed.

(** C8: the decoder returns a result for every pair of texts, malformed
    ones included, and the genotype of the result is the one read from
    the sample.  A depth entry that is not an integer literal raises
    inside the [try] block, and the result then holds the genotype alone:
    depth, allele-depth text, maximum alternate depth and fraction are
    absent.  With a depth entry that is read, an alternate depth with
    more digits than [int] takes raises and leaves depth and allele-depth
    text in place, maximum and fraction absent; and a quotient too large
    for a float raises and leaves the fraction alone absent.  Whenever
    the [try] block is left by an exception the result is the dict as it
    stood, the fraction is absent, and the exception has one of these
    three causes. *)
Theorem parse_format_recovers (fmt sample : option string) :
  ∃ r, parse_format fmt sample = inr r
     ∧ r_GT r = fields fmt sample !! "GT"
     ∧ (∀ s, fields fmt sample !! "DP" = Some s → s ≠ "." →
          Num.int s = None →
          parse_format_body fmt sample result_init = (r, inl (int_error s))
          ∧ r = mkResult (fields fmt sample !! "GT") None None None None)
     ∧ (∀ d x, decode_depth (fields fmt sample !! "DP") = Some d →
          x ∈ alt_entries (fields fmt sample !! "CLCAD2") →
          Num.all_digits x = true →
          (Num.max_str_digits < Py.len x)%nat →
          (∃ e, parse_format_body fmt sample result_init = (r, inl e))
          ∧ r = mkResult (fields fmt sample !! "GT") d
                  (fields fmt sample !! "CLCAD2") None None)
     ∧ (∀ d a, decode_depth (fields fmt sample !! "DP") = Some (Some d) →
          over_limit (fields fmt sample !! "CLCAD2") = false →
          Num.max_list (alt_depths_of (fields fmt sample !! "CLCAD2"))
          = Some a →
          0 < d → Num.truediv a d = None →
          (∃ e, parse_format_body fmt sample result_init = (r, inl e))
          ∧ r = mkResult (fields fmt sample !! "GT") (Some d)
                  (fields fmt sample !! "CLCAD2") (Some a) None)
     ∧ ∀ st e, parse_format_body fmt sample result_init = (st, inl e) →
         r = st
         ∧ r_VAF r = None
         ∧ ((∃ s, fields fmt sample !! "DP" = Some s ∧ s ≠ "."
                  ∧ Num.int s = None
                  ∧ r_DP r = None ∧ r_CLCAD2 r = None
                  ∧ r_ALT_AD_MAX r = None)
            ∨ (∃ x, x ∈ alt_entries (fields fmt sample !! "CLCAD2")
                    ∧ Num.all_digits x = true
                    ∧ (Num.max_str_digits < Py.len x)%nat
                    ∧ r_CLCAD2 r = fields fmt sample !! "CLCAD2"
                    ∧ r_ALT_AD_MAX r = None)
            ∨ ∃ d a, r_DP r = Some d ∧ 0 < d ∧ r_ALT_AD_MAX r = Some a
                     ∧ Num.truediv a d = None).
Proof.
  exists (decoded fmt sample). split; [apply parse_format_decoded|].
  split; [|split; [|split; [|split]]].
  - unfold decoded. destruct (decode_depth _); [|done].
    by destruct (over_limit _).
  - intros s Hs Hdot Hint.
    assert (decoded fmt sample
            = mkResult (fields fmt sample !! "GT") None None None None)
      as Hdec.
    { unfold decoded, decode_depth. rewrite Hs.
      rewrite bool_decide_eq_true_2 by done. by rewrite Hint. }
    split; [|done]. rewrite Hdec.
    unfold parse_format_body. fold (fields fmt sample). rewrite Hs.
    rewrite bool_decide_eq_true_2 by done.
    unfold mbind, ST_bind, St.bind, St.modify, int_st, St.lift, St.raise.
    by rewrite Hint.
  - intros d x Hd Hin Hx Hlen.
    assert (over_limit (fields fmt sample !! "CLCAD2") = true) as Hover.
    { apply over_limit_true. by exists x. }
    split.
    + apply parse_format_body_raises. unfold decode_fails.
      by rewrite Hd, Hover.
    + unfold decoded. by rewrite Hd, Hover.
  - intros d a Hd Hover Hmax Hpos Hq.
    assert (overflows (Some d) (Some a) = true) as Hov.
    { unfold overflows. destruct (Z.ltb_spec 0 d); [|lia].
      by rewrite bool_decide_eq_true_2. }
    split.
    + apply parse_format_body_raises. unfold decode_fails.
      by rewrite Hd, Hover, Hmax, Hov.
    + unfold decoded. rewrite Hd, Hover, Hmax. unfold fraction.
      destruct (Z.ltb_spec 0 d); [|lia]. by rewrite Hq.
  - intros st e Hbody.
    destruct (parse_format_body_run fmt sample) as (o & Hrun & Ho).
    rewrite Hrun in Hbody. injection Hbody as <- ->.
    split; [done|]. revert Ho. unfold decode_fails, decoded, decode_depth.
    destruct (fields fmt sample !! "DP") as [s|] eqn:Hs.
    + case_bool_decide as Hdot.
      * destruct (Num.int s) as [n|] eqn:Hint; simpl.
        -- destruct (over_limit _) eqn:Hover; simpl.
           ++ intros _. split; [done|]. right. left.
              apply over_limit_true in Hover as (x & ? & ? & ?).
              exists x. done.
           ++ unfold overflows, fraction.
              destruct (Num.max_list _) as [a|]; [|done].
              destruct (Z.ltb_spec 0 n) as [Hpos|]; [|done]. simpl.
              intros Hov%bool_decide_eq_true. rewrite Hov.
              split; [done|]. right. right. by exists n, a.
        -- intros _. split; [done|]. left. by exists s.
      * simpl. destruct (over_limit _) eqn:Hover; simpl; [|done].
        intros _. split; [done|]. right. left.
        apply over_limit_true in Hover as (x & ? & ? & ?).
        exists x. done.
    + simpl. destruct (over_limit _) eqn:Hover; simpl; [|done].
      intros _. split; [done|]. right. left.
      apply over_limit_true in Hover as (x & ? & ? & ?).
      exists x. done.
Qed.

Lemma parse_format_recovers_witness :
  parse_format (Some "GT:DP:CLCAD2") (Some "0/1:x:60,40")
  = inr (mkResult (Some "0/1") None None None None).
Proof.
  destruct (parse_format_recovers (Some "GT:DP:CLCAD2") (Some "0/1:x:60,40"))
    as (r & Hr & _ & Hdepth & _ & _ & _).
  destruct (Hdepth "x") as [_ Hres]; [vm_compute; reflexivity|done|
                                     vm_compute; reflexivity|].
  rewrite Hr, Hres. vm_compute. reflexivity.
Defined.

(** A depth that is not an integer literal raises inside the decoder,
    and the result keeps the genotype. *)
Lemma recovery_rule_as_stated_fails :
  ¬ stated_recovery_rule (Some "GT:DP") (Some "0/1:x").
Proof.
  intros [_ H].
  specialize (H (mkResult (Some "0/1") None None None None) (int_error "x")).
  assert (parse_format (Some "GT:DP") (Some "0/1:x") = inr result_init) as Hp
    by (apply H; vm_compute; reflexivity).
  vm_compute in Hp. discriminate Hp.
Qed.

(** ** Classifier *)

Section ClassifierProperties.
Context `{!Runtime}.

Lemma keep_variant_rules (v : variant) (cfg : config) :
  keep_variant v cfg = first_failure rules v cfg.
Proof.
  unfold keep_variant, rules, first_failure.
  unfold rule_pass, rule_qual_present, rule_dp_present, rule_ad_present,
    rule_vaf_present, rule_qual_min, rule_dp_min, rule_alt_min, rule_vaf_min,
    rule_repeat, qual_missing.
  destruct (require_pass cfg && _); [done|].
  destruct (v_qual v) as [qual|]; [|done].
  destruct (Num.isnan qual); [done|].
  destruct (v_dp v) as [dp|]; [|done].
  destruct (v_ad_alt_max v) as [ad|]; [|done].
  destruct (v_vaf v) as [vaf|]; [|done].
  destruct (Num.ltb qual _); [done|].
  destruct (dp <? _); [done|].
  destruct (ad <? _); [done|].
  destruct (Num.ltb vaf _); [done|].
  by destruct (drop_str_artifacts cfg && _).
Qed.

(** C1: the classifier is the evaluation of the ordered rules (PASS
    requirement, missing fields, thresholds, repeat heuristic) that
    stops at the first rule that fails, so its reason is the reason of
    that rule; every record whose filter status is neither "." nor
    "PASS" is dropped with reason "FILTER!=PASS" when the PASS
    requirement is on, whatever its quality, in particular when the
    quality is below the minimum. *)
Theorem keep_variant_first_failure (v : variant) (cfg : config) :
  keep_variant v cfg = first_failure rules v cfg
  ∧ (require_pass cfg = true → v_filt v ≠ "." → v_filt v ≠ "PASS" →
     keep_variant v cfg = (false, "FILTER!=PASS")).
Proof.
  split; [apply keep_variant_rules|].
  intros Hpass Hdot Hp. unfold keep_variant. rewrite Hpass.
  rewrite bool_decide_eq_false_2; [done|]. intros Hin.
  apply elem_of_cons in Hin as [Hin|Hin]; [done|].
  apply elem_of_cons in Hin as [Hin|Hin]; [done|].
  by apply elem_of_nil in Hin.
Qed.

(** ** TMB *)

Lemma positive_truthy (p : float) :
  Num.ltb Num.zero p = true → Num.truthy p = true.
Proof. by destruct p. Qed.

(** C4: with a panel size that is present and positive the aggregator
    returns the count divided by the panel size; with a panel size that
    is absent or not positive it returns the not-a-number value, which
    the report line renders as the not-computable text; 12 kept records
    on 1.2 Mb give exactly 10.0, and a panel size of 0 gives the
    not-computable line in the report. *)
Theorem compute_tmb_spec (kept_count : nat) (pm : option float) :
  (∀ p, pm = Some p → Num.ltb Num.zero p = true →
        compute_tmb kept_count pm
        = Num.fdiv (Num.of_int (Z.of_nat kept_count)) p)
  ∧ ((pm = None ∨ ∃ p, pm = Some p ∧ Num.ltb Num.zero p = false) →
     compute_tmb kept_count pm = Num.nan
     ∧ tmb_line (compute_tmb kept_count pm)
       = "TMB: hesaplanamadı (panel_mb eksik)")
  ∧ compute_tmb 12 (Some f_1_20) = f_10
  ∧ (∀ sample kept cfg path lines,
       Num.ltb Num.zero (panel_mb cfg) = false →
       report_lines sample kept cfg path
         (compute_tmb (length kept) (Some (panel_mb cfg))) = inr lines →
       lines !! 11%nat = Some "TMB: hesaplanamadı (panel_mb eksik)").
Proof.
  assert (∀ k p, Num.ltb Num.zero p = false →
                 compute_tmb k (Some p) = Num.nan) as Hnan.
  { intros k p Hp. unfold compute_tmb. rewrite Hp. by rewrite andb_false_r. }
  split; [|split; [|split]].
  - intros p -> Hp. unfold compute_tmb.
    by rewrite Hp, positive_truthy.
  - intros [->|(p & -> & Hp)].
    + done.
    + by rewrite Hnan.
  - vm_compute. reflexivity.
  - intros sample kept cfg path lines Hp. rewrite Hnan by done.
    unfold report_lines. destruct (kept_lines _) as [e|listing]; [done|].
    simpl. by intros [= <-].
Qed.
End ClassifierProperties.

Lemma keep_variant_first_failure_witness :
  keep_variant (H := example_runtime)
    (mkVariant "S1" "chr1" 100 "A" "T"
       (Some f_10) "q10" (Some 150) (Some 20)
       (Num.truediv 20 150))
    CONFIG
  = (false, "FILTER!=PASS").
Proof.
  apply (keep_variant_first_failure (H := example_runtime)); done.
Defined.

Lemma compute_tmb_spec_witness :
  compute_tmb 12 (Some (S754_zero false)) = Num.nan
  ∧ tmb_line (H := example_runtime) (compute_tmb 12 (Some (S754_zero false)))
    = "TMB: hesaplanamadı (panel_mb eksik)".
Proof.
  apply (compute_tmb_spec (H := example_runtime) 12 (Some (S754_zero false))).
  right. by exists (S754_zero false).
Defined.

(** ** Column positions *)

Lemma dict_snoc {V} (l : list (string * V)) (k : string) (v : V) :
  dict (l ++ [(k, v)]) = <[k := v]> (dict l).
Proof. unfold dict. by rewrite foldl_app. Qed.

Lemma column_index_snoc (hdr : list string) (name : string) :
  column_index (hdr ++ [name]) = <[name := length hdr]> (column_index hdr).
Proof.
  unfold column_index. rewrite imap_app. simpl.
  rewrite dict_snoc. by rewrite Nat.add_0_r.
Qed.

(** A name is mapped to the position of its last occurrence. *)
Lemma column_index_last (hdr : list string) (name : string) (i : nat) :
  column_index hdr !! name = Some i
  ↔ hdr !! i = Some name ∧ ∀ j, (i < j)%nat → hdr !! j ≠ Some name.
Proof.
  revert i. induction hdr as [|x hdr IH] using rev_ind; intros i.
  - unfold column_index, dict. simpl. rewrite lookup_empty. split; [done|].
    intros [H _]. by rewrite lookup_nil in H.
  - rewrite column_index_snoc. destruct (decide (x = name)) as [->|Hne].
    + rewrite lookup_insert_eq. split.
      * intros [= <-]. split.
        { by rewrite lookup_app_r, Nat.sub_diag by lia. }
        intros j Hj. rewrite lookup_ge_None_2; [done|].
        rewrite length_app. simpl. lia.
      * intros [Hi Hlast]. f_equal.
        destruct (decide (i < length hdr)%nat) as [Hlt|Hge].
        { exfalso. apply (Hlast (length hdr) Hlt).
          by rewrite lookup_app_r, Nat.sub_diag by lia. }
        apply lookup_lt_Some in Hi. rewrite length_app in Hi. simpl in Hi. lia.
    + rewrite lookup_insert_ne by done. rewrite IH. split.
      * intros [Hi Hlast]. split.
        { by apply lookup_app_l_Some. }
        intros j Hj. destruct (decide (j < length hdr)%nat) as [Hlt|Hge].
        { rewrite lookup_app_l by done. by apply Hlast. }
        destruct (decide (j = length hdr)) as [->|Hne'].
        { rewrite lookup_app_r, Nat.sub_diag by lia. simpl. congruence. }
        rewrite lookup_ge_None_2; [done|]. rewrite length_app. simpl. lia.
      * intros [Hi Hlast].
        assert (i < length hdr)%nat as Hlt.
        { destruct (decide (i < length hdr)%nat) as [|Hge]; [done|].
          pose proof (lookup_lt_Some _ _ _ Hi) as Hb.
          rewrite length_app in Hb. simpl in Hb.
          assert (i = length hdr) as -> by lia.
          rewrite lookup_app_r, Nat.sub_diag in Hi by lia. simpl in Hi.
          congruence. }
        rewrite lookup_app_l in Hi by done. split; [done|].
        intros j Hj Hjn. apply (Hlast j Hj). by apply lookup_app_l_Some.
Qed.

Lemma column_index_is_Some (hdr : list string) (name : string) :
  is_Some (column_index hdr !! name) ↔ name ∈ hdr.
Proof.
  induction hdr as [|x hdr IH] using rev_ind.
  - unfold column_index, dict. simpl. rewrite lookup_empty. split.
    + by intros [? ?].
    + by intros ?%elem_of_nil.
  - rewrite column_index_snoc, elem_of_app, list_elem_of_singleton.
    destruct (decide (x = name)) as [->|Hne].
    + rewrite lookup_insert_eq. split; [by right|eauto].
    + rewrite lookup_insert_ne by done. rewrite IH. split; [by left|].
      by intros [?|?].
Qed.

Lemma column_index_bound (hdr : list string) (name : string) (i : nat) :
  column_index hdr !! name = Some i → (i < length hdr)%nat.
Proof. intros [Hi _]%column_index_last. by eapply lookup_lt_Some. Qed.

(** The sample column is the last column of the header. *)
Lemma column_index_sample (hdr : list string) (n : string) :
  last hdr = Some n → column_index hdr !! n = Some (length hdr - 1)%nat.
Proof.
  intros Hlast. apply column_index_last. rewrite last_lookup in Hlast.
  assert (0 < length hdr)%nat.
  { destruct hdr; [done|simpl; lia]. }
  replace (length hdr - 1)%nat with (pred (length hdr)) by lia.
  split; [done|]. intros j Hj. rewrite lookup_ge_None_2; [done|lia].
Qed.

(** ** Reader *)

Section ReaderProperties.
Context `{!Runtime}.

Lemma col_is_Some idx parts name :
  is_Some (col idx parts name)
  ↔ ∃ i, idx !! name = Some i ∧ (i < length parts)%nat.
Proof.
  unfold col. destruct (idx !! name) as [i|]; simpl.
  - rewrite lookup_lt_is_Some. split; [eauto|]. by intros (? & [= <-] & ?).
  - split; [by intros [? ?]|]. by intros (? & ? & _).
Qed.

Lemma line_fields_is_Some (idx : gmap string nat)
    (sample_name : option string) (parts : list string) :
  is_Some (line_fields idx sample_name parts)
  ↔ is_Some (col idx parts "CHROM")
    ∧ (∃ i s, idx !! "POS" = Some i ∧ parts !! i = Some s
              ∧ is_Some (Num.int s))
    ∧ is_Some (col idx parts "REF")
    ∧ is_Some (col idx parts "ALT")
    ∧ is_Some (col idx parts "QUAL")
    ∧ (is_Some (idx !! "FILTER") → is_Some (col idx parts "FILTER"))
    ∧ (is_Some (idx !! "FORMAT") → is_Some (col idx parts "FORMAT"))
    ∧ (∀ n, sample_name = Some n → Py.truthy n = true →
            is_Some (col idx parts n)).
Proof.
  unfold line_fields, col. split.
  - intros [r Hr]. simplify_option_eq.
    split; [eauto|]. split; [eauto 6|]. do 3 (split; [eauto|]).
    split; [|split].
    + intros [i Hi]. rewrite Hi in *. simpl. eauto.
    + intros [i Hi]. rewrite Hi in *. simpl in *.
      destruct (parts !! i); [eauto|done].
    + intros n -> Ht. rewrite Ht in *.
      destruct (idx !! n) as [i|]; simpl in *; [|done].
      destruct (parts !! i); [eauto|done].
  - intros ([c Hc] & (ip & sp & Hip & Hsp & [np Hnp]) & [r Hr] & [a Ha]
            & [q Hq] & Hfil & Hfmt & Hsam).
    rewrite Hc, Hr, Ha, Hip. simpl. rewrite Hsp. simpl. rewrite Hnp. simpl.
    destruct (idx !! "QUAL") as [iq|]; simpl in Hq; [|done].
    simpl. rewrite Hq. simpl.
    assert (is_Some
      (match sample_name with
       | Some n =>
           if Py.truthy n
           then idx !! n ≫= λ i, parts !! i ≫= λ s, Some (Some s)
           else Some None
       | None => Some None
       end)) as [sc Hsc].
    { destruct sample_name as [n|]; [|eauto].
      destruct (Py.truthy n) eqn:Ht; [|eauto].
      destruct (Hsam n eq_refl Ht) as [x Hx].
      destruct (idx !! n) as [i|]; simpl in Hx; [|done].
      simpl. rewrite Hx. simpl. eauto. }
    assert (is_Some
      (match idx !! "FORMAT" with
       | Some i => parts !! i ≫= λ s, Some (Some s)
       | None => Some None
       end)) as [fm Hfm].
    { destruct (idx !! "FORMAT") as [i|]; [|eauto].
      destruct Hfmt as [x Hx]; [eauto|]. simpl in Hx. rewrite Hx. simpl. eauto. }
    assert (is_Some
      (match idx !! "FILTER" with
       | Some i => parts !! i
       | None => Some "."
       end)) as [fl Hfl].
    { destruct (idx !! "FILTER") as [i|]; [|eauto].
      destruct Hfil as [x Hx]; [eauto|]. simpl in Hx. rewrite Hx. eauto. }
    rewrite Hfl. simpl. rewrite Hfm. simpl. rewrite Hsc. simpl. eauto.
Qed.

Lemma line_fields_readable (hdr : list string) (sample_name : option string)
    (parts : list string) :
  is_Some (line_fields (column_index hdr) sample_name parts)
  ↔ readable hdr sample_name parts.
Proof.
  rewrite line_fields_is_Some. unfold readable, columns_read.
  setoid_rewrite col_is_Some. split.
  - intros (Hc & Hp & Hr & Ha & Hq & Hfil & Hfmt & Hsam). split; [|done].
    intros name Hin.
    repeat (apply elem_of_app in Hin as [Hin|Hin]
            || apply elem_of_cons in Hin as [->|Hin]); try done.
    + destruct Hp as (i & s & Hi & Hs & _). exists i. split; [done|].
      by eapply lookup_lt_Some.
    + by apply elem_of_nil in Hin.
    + case_bool_decide as Hf; [|by apply elem_of_nil in Hin].
      apply list_elem_of_singleton in Hin as ->.
      apply Hfil. by apply column_index_is_Some.
    + case_bool_decide as Hf; [|by apply elem_of_nil in Hin].
      apply list_elem_of_singleton in Hin as ->.
      apply Hfmt. by apply column_index_is_Some.
    + destruct sample_name as [n|]; [|by apply elem_of_nil in Hin].
      destruct (Py.truthy n) eqn:Ht; [|by apply elem_of_nil in Hin].
      apply list_elem_of_singleton in Hin as ->. by apply Hsam.
  - intros [Hall Hp].
    assert (∀ name, name ∈ ["CHROM"; "POS"; "REF"; "ALT"; "QUAL"] →
      ∃ i, column_index hdr !! name = Some i ∧ (i < length parts)%nat) as Hfix.
    { intros name Hin. apply Hall. apply elem_of_app. by left. }
    split; [apply Hfix; repeat constructor|]. split; [done|].
    split; [apply Hfix; repeat constructor|]. split; [apply Hfix; repeat constructor|].
    split; [apply Hfix; repeat constructor|]. split; [|split].
    + intros Hin%column_index_is_Some. apply Hall.
      rewrite !elem_of_app. right. left.
      rewrite bool_decide_eq_true_2 by done. left.
    + intros Hin%column_index_is_Some. apply Hall.
      rewrite !elem_of_app. right. right. left.
      rewrite bool_decide_eq_true_2 by done. left.
    + intros n -> Ht. apply Hall.
      rewrite !elem_of_app. right. right. right. rewrite Ht. left.
Qed.

Lemma line_record_is_Some (hdr : list string) (sample_name : option string)
    (vcf_path line : string) :
  is_Some (line_record hdr sample_name vcf_path line)
  ↔ is_data_line line = true ∧ readable hdr sample_name (data_parts line).
Proof.
  rewrite <- line_fields_readable. unfold line_record.
  destruct (is_data_line line).
  - destruct (line_fields _ _ _) as [[[[[[[[? ?] ?] ?] ?] ?] ?] ?]|]; simpl.
    + split; [eauto|]. eauto.
    + split; [by intros [? ?]|]. by intros [_ [? ?]].
  - split; [by intros [? ?]|]. by intros [? _].
Qed.

Lemma read_line_record (hdr : list string) (sample_name : option string)
    (vcf_path line : string) :
  read_line hdr sample_name vcf_path line
  = inr (line_record hdr sample_name vcf_path line).
Proof.
  unfold read_line, line_record, is_data_line, data_parts.
  destruct (Py.truthy line); [|done].
  destruct (Py.startswith "#" line); [done|]. simpl.
  destruct (line_fields _ _ _) as [[[[[[[[? ?] ?] ?] ?] ?] ?] ?]|]; [|done].
  simpl. destruct (has_sample sample_name); [|done].
  by rewrite parse_format_decoded.
Qed.

Lemma read_lines_records (hdr : list string) (sample_name : option string)
    (vcf_path : string) (lines : list string) :
  read_lines hdr sample_name vcf_path lines
  = inr (omap (line_record hdr sample_name vcf_path) lines).
Proof.
  induction lines as [|line rest IH]; [done|].
  cbn [read_lines]. rewrite read_line_record, IH. simpl.
  by destruct (line_record _ _ _ _).
Qed.

Lemma scan_header_line (lines : list string) :
  scan_header lines
  = match header_line lines with
    | None => inr None
    | Some line =>
        if has_columns required (header_cols_of line)
        then inr (Some (header_cols_of line,
                        header_sample (header_cols_of line)))
        else inl header_error
    end.
Proof.
  induction lines as [|line rest IH]; [done|]. simpl.
  destruct (Py.startswith "##" line); [done|].
  destruct (Py.startswith "#CHROM" line); [|done].
  unfold has_columns, header_cols_of.
  match goal with |- context [negb ?b] => by destruct b end.
Qed.

Lemma read_vcf_variants_closed (fs : filesystem) (vcf_path : string) :
  read_vcf_variants fs vcf_path
  = match fs vcf_path with
    | None => inl (FileNotFoundError vcf_path)
    | Some lines =>
        match header_line lines with
        | None => inl no_header_error
        | Some line =>
            let hdr := header_cols_of line in
            if has_columns required hdr
            then inr (sample_or_basename (header_sample hdr) vcf_path,
                      omap (line_record hdr (header_sample hdr) vcf_path) lines)
            else inl header_error
        end
    end.
Proof.
  unfold read_vcf_variants. destruct (fs vcf_path) as [lines|]; [|done].
  rewrite scan_header_line. destruct (header_line lines) as [line|]; [|done].
  cbn zeta. destruct (has_columns required (header_cols_of line)); [|done].
  simpl. by rewrite read_lines_records.
Qed.

Lemma has_columns_true (names hdr : list string) :
  has_columns names hdr = true ↔ ∀ c, c ∈ names → c ∈ hdr.
Proof.
  unfold has_columns. rewrite forallb_forall. split.
  - intros Hall c Hc. apply list_elem_of_In in Hc.
    by apply Hall, bool_decide_eq_true in Hc.
  - intros Hall c Hc. apply bool_decide_eq_true, Hall. by apply list_elem_of_In.
Qed.

Lemma has_columns_false (names hdr : list string) :
  has_columns names hdr = false ↔ ∃ c, c ∈ names ∧ c ∉ hdr.
Proof.
  unfold has_columns. induction names as [|n names IH]; simpl.
  - split; [done|]. by intros (c & ?%elem_of_nil & _).
  - rewrite andb_false_iff, IH, bool_decide_eq_false. split.
    + intros [Hn|(c & Hc & Hnc)].
      * exists n. split; [left|done].
      * exists c. split; [by right|done].
    + intros (c & [->|Hc]%elem_of_cons & Hnc); [by left|right; eauto].
Qed.
End ReaderProperties.

Section ReaderTheorems.
Context `{!Runtime}.

(** C6: the reader fails with FileNotFoundError exactly when the path
    does not exist; with an existing path and no header line it fails
    with the ValueError of the missing header; with a header line it
    fails, with the ValueError of the missing columns, exactly when one
    of CHROM, POS, ID, REF, ALT, QUAL, FILTER is not a column of that
    line, and returns the sample name and the records otherwise. *)
Theorem read_vcf_variants_errors (fs : filesystem) (vcf_path : string) :
  ((∃ a, read_vcf_variants fs vcf_path = inl (FileNotFoundError a))
   ↔ fs vcf_path = None)
  ∧ (∀ lines, fs vcf_path = Some lines → header_line lines = None →
       read_vcf_variants fs vcf_path = inl no_header_error)
  ∧ (∀ lines line, fs vcf_path = Some lines → header_line lines = Some line →
       (read_vcf_variants fs vcf_path = inl header_error
        ↔ ∃ c, c ∈ ["CHROM"; "POS"; "ID"; "REF"; "ALT"; "QUAL"; "FILTER"]
               ∧ c ∉ header_cols_of line)
       ∧ ((∀ c, c ∈ ["CHROM"; "POS"; "ID"; "REF"; "ALT"; "QUAL"; "FILTER"] →
                c ∈ header_cols_of line) →
          ∃ sample variants,
            read_vcf_variants fs vcf_path = inr (sample, variants))).
Proof.
  rewrite read_vcf_variants_closed. split; [|split].
  - destruct (fs vcf_path) as [lines|]; [|split; eauto].
    split; [|done]. intros [a Ha]. exfalso.
    destruct (header_line lines); [|done].
    cbn zeta in Ha. by destruct (has_columns _ _).
  - by intros lines -> ->.
  - intros lines line -> ->. cbn zeta.
    fold required. rewrite <- has_columns_false, <- has_columns_true.
    destruct (has_columns required (header_cols_of line)); split; eauto; done.
Qed.

(** C7: the second loop never raises, and its records are, in line
    order, those of the lines that can be read; a line gives a record
    exactly when it is not empty, does not start with "#", has a field at
    every column the reader takes (CHROM, POS, REF, ALT, QUAL, FILTER,
    and FORMAT and the sample column when the header has them) and has
    an integer literal as its POS field; every other line is passed over
    without an error.  With the validated header and as many fields as
    header columns, a line gives a record exactly when its POS field is
    an integer literal. *)
Theorem reader_skips_unreadable_lines (header_cols : list string)
    (sample_name : option string) (vcf_path : string) (lines : list string) :
  read_lines header_cols sample_name vcf_path lines
  = inr (omap (line_record header_cols sample_name vcf_path) lines)
  ∧ (∀ line,
       is_Some (line_record header_cols sample_name vcf_path line)
       ↔ is_data_line line = true
         ∧ readable header_cols sample_name (data_parts line))
  ∧ (∀ line,
       has_columns required header_cols = true →
       sample_name = header_sample header_cols →
       is_data_line line = true →
       length (data_parts line) = length header_cols →
       (is_Some (line_record header_cols sample_name vcf_path line)
        ↔ ∃ i s, column_index header_cols !! "POS" = Some i
                 ∧ data_parts line !! i = Some s ∧ is_Some (Num.int s))).
Proof.
  split; [apply read_lines_records|]. split; [apply line_record_is_Some|].
  intros line Hreq Hsn Hdata Hlen. rewrite line_record_is_Some.
  unfold readable. split; [by intros [_ [_ ?]]|]. intros Hpos.
  split; [done|]. split; [|done]. intros name Hin.
  assert (name ∈ header_cols) as Hhdr.
  { rewrite has_columns_true in Hreq. unfold columns_read in Hin.
    repeat (apply elem_of_app in Hin as [Hin|Hin]).
    - apply Hreq. unfold required.
      repeat (apply elem_of_cons in Hin as [->|Hin]);
        [by repeat constructor..|by apply elem_of_nil in Hin].
    - case_bool_decide; [|by apply elem_of_nil in Hin].
      by apply list_elem_of_singleton in Hin as ->.
    - case_bool_decide; [|by apply elem_of_nil in Hin].
      by apply list_elem_of_singleton in Hin as ->.
    - subst sample_name. unfold header_sample in Hin.
      destruct (bool_decide _ && _); [|by apply elem_of_nil in Hin].
      destruct (last header_cols) as [n|] eqn:Hlast;
        [|by apply elem_of_nil in Hin].
      destruct (Py.truthy n); [|by apply elem_of_nil in Hin].
      apply list_elem_of_singleton in Hin as ->.
      rewrite last_lookup in Hlast. by eapply list_elem_of_lookup_2. }
  apply column_index_is_Some in Hhdr as [i Hi]. exists i. split; [done|].
  rewrite Hlen. by eapply column_index_bound.
Qed.

End ReaderTheorems.

(** A header with the six columns of the specification but no ID column
    is refused. *)
Lemma header_rule_as_stated_fails :
  ¬ stated_header_rule (H := example_runtime)
      (one_file [tsv ["#CHROM"; "POS"; "REF"; "ALT"; "QUAL"; "FILTER"]])
      "a.vcf".
Proof.
  intros Hrule.
  destruct (Hrule [tsv ["#CHROM"; "POS"; "REF"; "ALT"; "QUAL"; "FILTER"]]
                  (tsv ["#CHROM"; "POS"; "REF"; "ALT"; "QUAL"; "FILTER"])
                  eq_refl eq_refl) as [Hfail _].
  assert (has_columns stated_mandatory
            (header_cols_of
               (tsv ["#CHROM"; "POS"; "REF"; "ALT"; "QUAL"; "FILTER"]))
          = false) as Hcols.
  { apply Hfail. eexists. vm_compute. reflexivity. }
  vm_compute in Hcols. discriminate Hcols.
Qed.

Lemma read_vcf_variants_errors_witness :
  read_vcf_variants (H := example_runtime)
    (one_file [tsv ["##fileformat=VCFv4.2"]; tsv ["chr1"; "5"]]) "a.vcf"
  = inl no_header_error.
Proof.
  apply (proj1 (proj2 (read_vcf_variants_errors (H := example_runtime)
           (one_file [tsv ["##fileformat=VCFv4.2"]; tsv ["chr1"; "5"]])
           "a.vcf"))
           [tsv ["##fileformat=VCFv4.2"]; tsv ["chr1"; "5"]]);
    reflexivity.
Defined.

(** With the header CHROM .. FILTER, a line of seven fields whose POS is
    not a number is passed over, and a line of eight fields gives a
    record. *)
Lemma skip_rule_as_stated_fails :
  ¬ stated_skip_rule (H := example_runtime)
      ["CHROM"; "POS"; "ID"; "REF"; "ALT"; "QUAL"; "FILTER"] None "a.vcf"
      (tsv ["chr1"; "x"; "."; "A"; "T"; "50"; "PASS"])
  ∧ ¬ stated_skip_rule (H := example_runtime)
      ["CHROM"; "POS"; "ID"; "REF"; "ALT"; "QUAL"; "FILTER"] None "a.vcf"
      (tsv ["chr1"; "7"; "."; "A"; "T"; "50"; "PASS"; "extra"]).
Proof.
  split; intros Hrule.
  - destruct (Hrule eq_refl) as [_ Hrec].
    destruct Hrec as [v Hv]; [vm_compute; reflexivity|].
    vm_compute in Hv. discriminate Hv.
  - destruct (Hrule eq_refl) as [Hlen _].
    assert (length (data_parts
              (tsv ["chr1"; "7"; "."; "A"; "T"; "50"; "PASS"; "extra"]))
            = 7%nat) as Hcount.
    { apply Hlen. eexists. vm_compute. reflexivity. }
    vm_compute in Hcount. discriminate Hcount.
Qed.

(** A POS field of the separator 28 followed by a digit is no integer
    literal, so the line is passed over. *)
Example separator_position_skipped :
  line_record (H := example_runtime)
    ["CHROM"; "POS"; "ID"; "REF"; "ALT"; "QUAL"; "FILTER"] None "a.vcf"
    (tsv ["chr1"; String "028" "7"; "."; "A"; "T"; "50"; "PASS"])
  = None.
Proof. vm_compute. reflexivity. Qed.

Lemma reader_skips_unreadable_lines_witness :
  is_Some (line_record (H := example_runtime)
             ["CHROM"; "POS"; "ID"; "REF"; "ALT"; "QUAL"; "FILTER"] None
             "a.vcf" (tsv ["chr1"; "7"; "."; "A"; "T"; "50"; "PASS"])).
Proof.
  apply (proj2 (proj2 (reader_skips_unreadable_lines (H := example_runtime)
           ["CHROM"; "POS"; "ID"; "REF"; "ALT"; "QUAL"; "FILTER"] None
           "a.vcf" []))); try reflexivity.
  exists 1%nat, "7". repeat split. eexists. vm_compute. reflexivity.
Defined.

(** ** Driver *)

Section DriverProperties.
Context `{!Runtime}.

Lemma classify_all_filter (cfg : config) (variants : list variant) :
  classify_all cfg variants
  = (filter (λ r, row_kept r = true) (classify cfg <$> variants),
     filter (λ r, row_kept r = false) (classify cfg <$> variants)).
Proof.
  unfold classify_all.
  assert (∀ kept dropped,
    foldl (classify_step cfg) (kept, dropped) variants
    = (kept ++ filter (λ r, row_kept r = true) (classify cfg <$> variants),
       dropped ++ filter (λ r, row_kept r = false) (classify cfg <$> variants)))
    as Hgen.
  { induction variants as [|v vs IH]; intros kept dropped; simpl.
    - by rewrite !app_nil_r.
    - unfold classify_step at 2, classify.
      destruct (keep_variant v cfg) as [keep reason].
      cbn [fst snd]. destruct keep; rewrite IH.
      + rewrite filter_cons_True, filter_cons_False by done.
        by rewrite <- app_assoc.
      + rewrite filter_cons_False, filter_cons_True by done.
        by rewrite <- app_assoc. }
  apply (Hgen [] []).
Qed.

Lemma filter_split_length {A} (f : A → bool) (l : list A) :
  (length (filter (λ x, f x = true) l) + length (filter (λ x, f x = false) l)
   = length l)%nat.
Proof.
  induction l as [|x l IH]; [done|]. rewrite !filter_cons.
  destruct (f x) eqn:Hf.
  - rewrite decide_True, decide_False by done. simpl. lia.
  - rewrite decide_False, decide_True by done. simpl. lia.
Qed.

Lemma filter_split_perm {A} (f : A → bool) (l : list A) :
  filter (λ x, f x = true) l ++ filter (λ x, f x = false) l ≡ₚ l.
Proof.
  induction l as [|x l IH]; [done|]. rewrite !filter_cons.
  destruct (f x) eqn:Hf.
  - rewrite decide_True, decide_False by done. simpl. by rewrite IH.
  - rewrite decide_False, decide_True by done.
    rewrite <- Permutation_middle. by rewrite IH.
Qed.

Lemma filter_all_false {A} (f : A → bool) (l : list A) :
  Forall (λ x, f x = false) l →
  filter (λ x, f x = true) l = [] ∧ filter (λ x, f x = false) l = l.
Proof.
  induction 1 as [|x l Hx _ [IH1 IH2]]; [done|].
  rewrite filter_cons_False by congruence.
  rewrite filter_cons_True by done. by rewrite IH1, IH2.
Qed.

Lemma omap_length_filter {A B} (f : A → option B) (l : list A) :
  length (omap f l) = length (filter (λ x, is_Some (f x)) l).
Proof.
  induction l as [|x l IH]; [done|]. cbn [omap list_omap].
  destruct (f x) as [y|] eqn:Hf.
  - rewrite filter_cons_True by (rewrite Hf; eauto). simpl. by f_equal.
  - rewrite filter_cons_False by (rewrite Hf; by intros [? ?]). done.
Qed.

(** A kept record has a quality, so its listing line can be written. *)
Lemma kept_has_qual (v : variant) (cfg : config) :
  (keep_variant v cfg).1 = true → is_Some (v_qual v).
Proof.
  unfold keep_variant. destruct (require_pass cfg && _); [done|].
  destruct (v_qual v); [eauto|done].
Qed.

Lemma kept_lines_ok (rs : list row) :
  Forall (λ r, is_Some (row_qual r)) rs → ∃ ls, kept_lines rs = inr ls.
Proof.
  induction 1 as [|r rs [q Hq] _ [ls IH]]; [by exists []|].
  simpl. unfold kept_line. rewrite Hq. simpl. rewrite IH. simpl. eauto.
Qed.

Lemma kept_rows_have_qual (cfg : config) (variants : list variant) :
  Forall (λ r, is_Some (row_qual r))
         (filter (λ r, row_kept r = true) (classify cfg <$> variants)).
Proof.
  apply Forall_forall. intros r [Hk Hin]%list_elem_of_filter.
  apply list_elem_of_fmap in Hin as (v & -> & _).
  unfold classify in *. simpl in *. by apply (kept_has_qual v cfg).
Qed.

Lemma make_text_report_ok (sample : string) (cfg : config)
    (variants : list variant) (dropped : list row)
    (outdir vcf_path : string) :
  let kept := filter (λ r, row_kept r = true) (classify cfg <$> variants) in
  make_text_report sample kept dropped outdir cfg vcf_path
  = (write_text (report_path outdir sample)
       (report_text sample kept cfg vcf_path);;
     inr (report_path outdir sample,
          compute_tmb (length kept) (Some (panel_mb cfg)))).
Proof.
  intros kept. unfold make_text_report, report_text, report_lines.
  destruct (kept_lines_ok (take 20 kept)) as [ls Hls].
  { apply Forall_take, kept_rows_have_qual. }
  rewrite Hls. done.
Qed.

(** [process_vcf] in closed form: the reader, the classification, the
    report written, the five results. *)
Lemma process_vcf_closed (fs : filesystem) (vcf_path outdir : string)
    (cfg : config) :
  process_vcf fs vcf_path outdir cfg
  = match read_vcf_variants fs vcf_path with
    | inl e => inl e
    | inr (sample, variants) =>
        let rows := classify cfg <$> variants in
        let kept := filter (λ r, row_kept r = true) rows in
        write_text (report_path outdir sample)
          (report_text sample kept cfg vcf_path);;
        inr (sample, kept, filter (λ r, row_kept r = false) rows,
             report_path outdir sample,
             compute_tmb (length kept) (Some (panel_mb cfg)))
    end.
Proof.
  unfold process_vcf.
  destruct (read_vcf_variants fs vcf_path) as [e|[sample variants]]; [done|].
  simpl. rewrite classify_all_filter. rewrite make_text_report_ok.
  cbn zeta. by destruct (write_text _ _) as [e|[]].
Qed.

(** C5: when a file is processed successfully, the kept and the dropped
    rows together are the classified records of the reader, each record
    in exactly one of the two lists according to its flag, so the two
    counts add up to the number of records; that number is the number of
    lines that give a record, the lines passed over being in neither
    list. *)
Theorem kept_plus_dropped (fs : filesystem) (vcf_path outdir : string)
    (cfg : config) (sample : string) (kept dropped : list row)
    (txt_path : string) (tmb : float) :
  process_vcf fs vcf_path outdir cfg
  = inr (sample, kept, dropped, txt_path, tmb) →
  ∃ lines header_cols sample_name variants,
    fs vcf_path = Some lines
    ∧ read_vcf_variants fs vcf_path = inr (sample, variants)
    ∧ variants = omap (line_record header_cols sample_name vcf_path) lines
    ∧ (length kept + length dropped = length variants)%nat
    ∧ kept ++ dropped ≡ₚ classify cfg <$> variants
    ∧ Forall (λ r, row_kept r = true) kept
    ∧ Forall (λ r, row_kept r = false) dropped
    ∧ length variants
      = length (filter (λ line, is_Some (line_record header_cols sample_name
                                           vcf_path line)) lines).
Proof.
  rewrite process_vcf_closed, read_vcf_variants_closed.
  destruct (fs vcf_path) as [lines|]; [|done].
  destruct (header_line lines) as [line|]; [|done]. cbn zeta.
  destruct (has_columns _ _); [|done].
  destruct (write_text _ _) as [e|[]]; [done|].
  intros [= <- <- <- _ _].
  exists lines, (header_cols_of line), (header_sample (header_cols_of line)).
  eexists. split; [done|]. split; [done|]. split; [done|].
  split; [|split; [|split; [|split]]].
  - by rewrite filter_split_length, length_fmap.
  - apply filter_split_perm.
  - apply Forall_forall. by intros r [? _]%list_elem_of_filter.
  - apply Forall_forall. by intros r [? _]%list_elem_of_filter.
  - apply omap_length_filter.
Qed.

Lemma main_file_run (fs : filesystem) (outdir : string) (cfg : config)
    (vcf_path : string) (b : batch) :
  ∃ b', main_file fs outdir cfg vcf_path b = (b', inr tt)
        ∧ summary_rows b'
          = summary_rows b ++ [summary_of fs outdir cfg vcf_path].
Proof.
  unfold main_file, summary_of, St.try_except, mbind, ST_bind, St.bind,
    St.of_res.
  destruct (process_vcf fs vcf_path outdir cfg)
    as [e|[[[[sample kept] dropped] txt_path] tmb_val]]; simpl; eauto.
Qed.

Lemma main_files_run (fs : filesystem) (outdir : string) (cfg : config)
    (vcf : list string) (b : batch) :
  ∃ b', main_files fs outdir cfg vcf b = (b', inr tt)
        ∧ summary_rows b'
          = summary_rows b ++ (summary_of fs outdir cfg <$> vcf).
Proof.
  revert b. induction vcf as [|p rest IH]; intros b.
  - exists b. by rewrite app_nil_r.
  - destruct (main_file_run fs outdir cfg p b) as (b1 & Hrun1 & Hsum1).
    destruct (IH b1) as (b2 & Hrun2 & Hsum2).
    exists b2. split.
    + cbn [main_files]. unfold mbind, ST_bind, St.bind. by rewrite Hrun1.
    + rewrite Hsum2, Hsum1, <- app_assoc. done.
Qed.

Lemma main_run_closed (fs : filesystem) (outdir : string) (cfg : config)
    (vcf : list string) (b : batch) :
  main_files fs outdir cfg vcf batch_init = (b, inr tt) →
  main_run fs outdir cfg vcf batch_init
  = match makedirs outdir with
    | inl e => (batch_init, inl e)
    | inr _ => (b, main_end outdir b)
    end.
Proof.
  intros Hrun. unfold main_run, main_end, mbind, ST_bind, St.bind, St.of_res,
    St.get, St.ret, Res_bind.
  destruct (makedirs outdir) as [e|[]]; [done|]. rewrite Hrun.
  destruct (write_excel _ _ _) as [e|xlsx]; [done|].
  by destruct (console_summary _ _) as [e|[]].
Qed.

(** C9: the loop over the inputs never raises; the summary has one row
    per input, in input order; the row of an input whose processing
    raised is the error row of that input, which carries the text of the
    exception and leaves the kept count, the dropped count and the TMB
    absent, and the inputs after it get their rows all the same.  The
    run is the output directory made, the loop, and then the workbook,
    the console summary and status 0: it ends with status 0 unless one
    of these steps outside the loop raises, whatever the inputs. *)
Theorem batch_survives_failures (fs : filesystem) (outdir : string)
    (cfg : config) (vcf : list string) :
  ∃ b, main_files fs outdir cfg vcf batch_init = (b, inr tt)
     ∧ main_run fs outdir cfg vcf batch_init
       = match makedirs outdir with
         | inl e => (batch_init, inl e)
         | inr _ => (b, main_end outdir b)
         end
     ∧ (makedirs outdir = inr tt → main_end outdir b = inr 0 →
        main_run fs outdir cfg vcf batch_init = (b, inr 0))
     ∧ summary_rows b = summary_of fs outdir cfg <$> vcf
     ∧ (∀ i p e, vcf !! i = Some p →
          process_vcf fs p outdir cfg = inl e →
          summary_rows b !! i = Some (error_summary cfg p e))
     ∧ (∀ p e, s_vcf (error_summary cfg p e) = p
               ∧ s_error (error_summary cfg p e) = Some (str_exn e)
               ∧ s_kept_variants (error_summary cfg p e) = None
               ∧ s_dropped_variants (error_summary cfg p e) = None
               ∧ s_tmb_variants_per_mb (error_summary cfg p e) = None).
Proof.
  destruct (main_files_run fs outdir cfg vcf batch_init) as (b & Hrun & Hsum).
  exists b. simpl in Hsum.
  pose proof (main_run_closed fs outdir cfg vcf b Hrun) as Hmain.
  split; [done|]. split; [done|]. split; [|split; [done|split; [|done]]].
  - intros Hdir Hend. by rewrite Hmain, Hdir, Hend.
  - intros i p e Hp He. rewrite Hsum, list_lookup_fmap, Hp. simpl.
    unfold summary_of. by rewrite He.
Qed.

(** ** Files without a sample column *)

Lemma header_sample_None (hdr : list string) :
  "FORMAT" ∉ hdr ∨ (length hdr ≤ index_of "FORMAT" hdr + 1)%nat →
  header_sample hdr = None.
Proof.
  unfold header_sample. intros [Hn|Hlen].
  - by rewrite bool_decide_eq_false_2.
  - destruct (Nat.ltb_spec (index_of "FORMAT" hdr + 1) (length hdr)); [lia|].
    by rewrite andb_false_r.
Qed.

Lemma keep_variant_no_depth (v : variant) (cfg : config) :
  v_dp v = None → (keep_variant v cfg).1 = false.
Proof.
  intros Hdp. unfold keep_variant. rewrite Hdp.
  destruct (require_pass cfg && _); [done|].
  destruct (v_qual v) as [q|]; [|done]. by destruct (Num.isnan q).
Qed.

Lemma line_record_no_sample (hdr : list string) (vcf_path line : string)
    (v : variant) :
  line_record hdr None vcf_path line = Some v →
  v_sample v = basename vcf_path ∧ v_dp v = None
  ∧ v_ad_alt_max v = None ∧ v_vaf v = None.
Proof.
  unfold line_record. destruct (is_data_line line); [|done].
  destruct (line_fields _ _ _) as [[[[[[[[? ?] ?] ?] ?] ?] ?] ?]|]; [|done].
  simpl. by intros [= <-].
Qed.

(** C10: when the header line lacks a FORMAT column or has no column
    after it, a successful read names the sample by the basename of the
    path and gives records whose depth, maximum alternate depth and
    fraction are absent; under every configuration the classification
    then keeps no record and drops every one, and the file is processed,
    its report once written, with no kept row. *)
Theorem no_sample_column_all_dropped (fs : filesystem) (vcf_path : string)
    (lines : list string) (line sample : string) (variants : list variant) :
  fs vcf_path = Some lines →
  header_line lines = Some line →
  "FORMAT" ∉ header_cols_of line
  ∨ (length (header_cols_of line)
     ≤ index_of "FORMAT" (header_cols_of line) + 1)%nat →
  read_vcf_variants fs vcf_path = inr (sample, variants) →
  sample = basename vcf_path
  ∧ Forall (λ v, v_sample v = basename vcf_path ∧ v_dp v = None
                 ∧ v_ad_alt_max v = None ∧ v_vaf v = None) variants
  ∧ ∀ outdir cfg, ∃ dropped txt_path tmb,
      classify_all cfg variants = ([], dropped)
      ∧ process_vcf fs vcf_path outdir cfg
        = (write_text txt_path
             (report_text (basename vcf_path) [] cfg vcf_path);;
           inr (basename vcf_path, [], dropped, txt_path, tmb))
      ∧ length dropped = length variants
      ∧ Forall (λ r, row_kept r = false) dropped.
Proof.
  intros Hfs Hhdr Hfmt%header_sample_None Hread.
  pose proof Hread as Hread'.
  rewrite read_vcf_variants_closed, Hfs, Hhdr in Hread'. cbn zeta in Hread'.
  destruct (has_columns _ _); [|done]. rewrite Hfmt in Hread'.
  injection Hread' as <- <-. simpl.
  assert (Forall (λ v, v_sample v = basename vcf_path ∧ v_dp v = None
                       ∧ v_ad_alt_max v = None ∧ v_vaf v = None)
            (omap (line_record (header_cols_of line) None vcf_path) lines))
    as Hall.
  { apply Forall_forall. intros v (l & _ & Hl)%list_elem_of_omap.
    by eapply line_record_no_sample. }
  split; [done|]. split; [done|]. intros outdir cfg.
  rewrite process_vcf_closed, Hread, classify_all_filter. cbn zeta.
  assert (Forall (λ r, row_kept r = false)
            (classify cfg <$>
               omap (line_record (header_cols_of line) None vcf_path) lines))
    as Hdrop.
  { apply Forall_fmap. eapply Forall_impl; [exact Hall|].
    intros v (_ & Hdp & _). simpl. unfold classify. simpl.
    by apply keep_variant_no_depth. }
  destruct (filter_all_false row_kept _ Hdrop) as [-> ->].
  do 3 eexists. split; [reflexivity|]. split; [reflexivity|].
  split; [by rewrite length_fmap|]. exact Hdrop.
Qed.
End DriverProperties.

(** ** Running the reporter *)

Example process_vcf_ex :
  process_vcf (H := example_runtime) example_fs "data/good.vcf" "out" CONFIG
  = inr ("S1",
         [mkRow "S1" "chr1" 100 "A" "T" (Some (Num.of_int 80)) "PASS"
            (Some 150) (Some 20) (Num.truediv 20 150) true "OK"],
         [mkRow "S1" "chr1" 200 "A" "AAAA" (Some (Num.of_int 80)) "PASS"
            (Some 150) (Some 20) (Num.truediv 20 150) false "STR_artifact"],
         "out/S1_TMB_report.txt",
         Num.fdiv (Num.of_int 1) f_1_20).
Proof. vm_compute. reflexivity. Qed.

Example process_vcf_readonly_ex :
  process_vcf (H := readonly_runtime) example_fs "data/good.vcf" "ro" CONFIG
  = inl (Raised "PermissionError" "[Errno 13] Permission denied").
Proof. vm_compute. reflexivity. Qed.

Lemma kept_plus_dropped_witness :
  match process_vcf (H := example_runtime) example_fs "data/good.vcf" "out"
          CONFIG with
  | inr (sample, kept, dropped, _, _) =>
      ∃ variants,
        read_vcf_variants (H := example_runtime) example_fs "data/good.vcf"
        = inr (sample, variants)
        ∧ (length kept + length dropped = length variants)%nat
  | inl _ => False
  end.
Proof.
  destruct (process_vcf (H := example_runtime) example_fs "data/good.vcf"
              "out" CONFIG)
    as [e|[[[[sample kept] dropped] txt_path] tmb]] eqn:Hp.
  - vm_compute in Hp. discriminate Hp.
  - destruct (kept_plus_dropped (H := example_runtime) _ _ _ _ _ _ _ _ _ Hp)
      as (lines & hdr & sn & variants & _ & Hread & _ & Hlen & _).
    by exists variants.
Defined.

Lemma batch_survives_failures_witness :
  ∃ b, main_run (H := example_runtime) example_fs "out" CONFIG
         ["data/missing.vcf"; "data/good.vcf"] batch_init = (b, inr 0)
       ∧ length (summary_rows b) = 2%nat
       ∧ summary_rows b !! 0%nat
         = Some (error_summary CONFIG
                   "data/missing.vcf" (FileNotFoundError "data/missing.vcf")).
Proof.
  destruct (batch_survives_failures (H := example_runtime) example_fs "out"
              CONFIG ["data/missing.vcf"; "data/good.vcf"])
    as (b & Hloop & _ & Hrun & Hsum & Herr & _).
  exists b. split; [|split; [by rewrite Hsum|apply Herr; reflexivity]].
  apply Hrun; [reflexivity|].
  assert (main_files (H := example_runtime) example_fs "out" CONFIG
            ["data/missing.vcf"; "data/good.vcf"] batch_init
          = (b, inr tt) → main_end (H := example_runtime) "out" b = inr 0)
    as Hend; [|by apply Hend].
  vm_compute. intros [= <-]. reflexivity.
Defined.

Lemma no_sample_column_all_dropped_witness :
  ∃ dropped txt_path tmb,
    process_vcf (H := example_runtime) example_fs "data/plain.vcf" "out" CONFIG
    = inr ("plain.vcf", [], dropped, txt_path, tmb)
    ∧ length dropped = 1%nat.
Proof.
  edestruct (no_sample_column_all_dropped (H := example_runtime) example_fs
               "data/plain.vcf") as (_ & _ & Hp).
  - reflexivity.
  - reflexivity.
  - left. apply (proj1 (bool_decide_eq_false _)). vm_compute. reflexivity.
  - vm_compute. reflexivity.
  - destruct (Hp "out" CONFIG)
      as (dropped & txt_path & tmb & _ & Hrun & Hlen & _).
    exists dropped, txt_path, tmb. split; [exact Hrun|exact Hlen].
Defined.

(** * Further properties *)

(** ** Splitting *)

Lemma split_go_no_sep (sep : ascii) (cur l : list ascii) :
  sep ∉ l → Py.split_go sep cur l = [Py.str (reverse cur ++ l)].
Proof.
  revert cur. induction l as [|c l IH]; intros cur Hn; simpl.
  - by rewrite app_nil_r.
  - rewrite bool_decide_eq_false_2.
    + rewrite IH.
      * by rewrite reverse_cons, <- app_assoc.
      * intros Hin. apply Hn. by right.
    + intros ->. apply Hn. left.
Qed.

Lemma split_no_sep (sep : ascii) (s : string) :
  Py.contains sep s = false → Py.split sep s = [s].
Proof.
  unfold Py.contains, Py.split. intros Hn%bool_decide_eq_false.
  rewrite split_go_no_sep by done. simpl. by rewrite str_chars.
Qed.

Lemma split_go_piece_length (sep : ascii) (cur l : list ascii) (p : string) :
  p ∈ Py.split_go sep cur l → (Py.len p ≤ length cur + length l)%nat.
Proof.
  revert cur. induction l as [|c l IH]; intros cur; simpl.
  - intros ->%list_elem_of_singleton. unfold Py.len.
    rewrite chars_str, length_reverse. lia.
  - case_bool_decide.
    + intros [->|Hin]%elem_of_cons.
      * unfold Py.len. rewrite chars_str, length_reverse. lia.
      * apply IH in Hin. simpl in Hin. lia.
    + intros Hin%IH. simpl in Hin. lia.
Qed.

Lemma split_piece_length (sep : ascii) (s p : string) :
  p ∈ Py.split sep s → (Py.len p ≤ Py.len s)%nat.
Proof. intros Hin%split_go_piece_length. simpl in Hin. exact Hin. Qed.

Lemma upper_len (s : string) : Py.len (Py.upper s) = Py.len s.
Proof. unfold Py.len, Py.upper. by rewrite chars_str, length_fmap. Qed.

(** ** Repeat heuristic on a pair of alleles *)

Lemma short_not_flagged (s : string) : (Py.len s < 3)%nat → flagged s = false.
Proof.
  intros Hlen. unfold flagged, is_homopolymer, is_dinuc_repeat.
  destruct (Nat.leb_spec 3 (Py.len s)); [lia|].
  destruct (Nat.ltb_spec (Py.len s) 4); [|lia].
  rewrite andb_false_r, orb_true_r. by destruct (negb (Py.truthy s)).
Qed.

Lemma looks_like_existsb (ref alt : string) :
  looks_like_str_artifact ref alt
  = existsb flagged (Py.upper ref :: Py.split "," (Py.upper alt)).
Proof.
  unfold looks_like_str_artifact.
  destruct (Py.contains "," (Py.upper alt)) eqn:Hc; [done|].
  by rewrite split_no_sep.
Qed.

(** X1: the repeat filter flags a pair of alleles exactly when the
    upper-cased reference or one of the comma-separated pieces of the
    upper-cased alternate text is a homopolymer or a dinucleotide repeat;
    the test for a comma before splitting changes nothing. *)
Theorem str_artifact_alleles (ref alt : string) :
  looks_like_str_artifact ref alt
  = existsb flagged (Py.upper ref :: Py.split "," (Py.upper alt))
  ∧ (looks_like_str_artifact ref alt = true
     ↔ ∃ allele, allele ∈ Py.upper ref :: Py.split "," (Py.upper alt)
                 ∧ (is_homopolymer allele = true
                    ∨ is_dinuc_repeat allele = true)).
Proof.
  split; [apply looks_like_existsb|].
  rewrite looks_like_existsb, existsb_exists. unfold flagged.
  setoid_rewrite orb_true_iff. setoid_rewrite list_elem_of_In. done.
Qed.

(** X2: a homopolymer of length at least 4 is also a dinucleotide
    repeat, so the homopolymer test decides alone only at length 3. *)
Theorem homopolymer_is_dinuc (s : string) :
  is_homopolymer s = true → (4 ≤ Py.len s)%nat → is_dinuc_repeat s = true.
Proof.
  unfold is_homopolymer, is_dinuc_repeat, Py.len. intros Hh Hlen.
  destruct (Py.truthy s); [|done]. cbn [negb orb] in *.
  apply andb_true_iff in Hh as [Hset _].
  apply bool_decide_eq_true, len_set_one in Hset as [_ Hall].
  destruct (Nat.ltb_spec (length (Py.chars s)) 4) as [|_]; [lia|].
  apply bool_decide_eq_true.
  fold (tile2 (take 2 (Py.chars s)) (length (Py.chars s))).
  apply tile2_periodic; [lia|]. intros i c Hc.
  destruct (lookup_lt_is_Some_2 (Py.chars s) (i mod 2)%nat) as [d Hd].
  { pose proof (Nat.mod_upper_bound i 2). lia. }
  rewrite Hd. f_equal. apply Hall; by eapply list_elem_of_lookup_2.
Qed.

Lemma homopolymer_is_dinuc_witness : is_dinuc_repeat "AAAA" = true.
Proof. apply homopolymer_is_dinuc; [reflexivity|cbn; lia]. Defined.

Lemma upper_char_comma (c : ascii) :
  Py.upper_char c = ","%char ↔ c = ","%char.
Proof.
  split; [|by intros ->].
  destruct c as [[] [] [] [] [] [] [] []]; vm_compute; congruence.
Qed.

Lemma split_go_upper (cur l : list ascii) :
  Py.split_go "," (Py.upper_char <$> cur) (Py.upper_char <$> l)
  = Py.upper <$> Py.split_go "," cur l.
Proof.
  assert (∀ x, Py.str (reverse (Py.upper_char <$> x))
               = Py.upper (Py.str (reverse x))) as Hrev.
  { intros x. unfold Py.upper. by rewrite chars_str, fmap_reverse. }
  revert cur. induction l as [|c l IH]; intros cur; simpl.
  - by rewrite Hrev.
  - destruct (decide (c = ","%char)) as [->|Hne].
    + rewrite !bool_decide_eq_true_2 by done. simpl.
      rewrite Hrev. f_equal. apply (IH []).
    + rewrite !bool_decide_eq_false_2; [|done|by rewrite upper_char_comma].
      apply (IH (c :: cur)).
Qed.

Lemma split_upper (s : string) :
  Py.split "," (Py.upper s) = Py.upper <$> Py.split "," s.
Proof.
  unfold Py.split, Py.upper at 1. rewrite chars_str. apply (split_go_upper []).
Qed.

(** X3: when the reference and every comma-separated alternate allele
    are shorter than 3 characters the pair is never flagged. *)
Theorem short_alleles_not_artifact (ref alt : string) :
  (Py.len ref < 3)%nat →
  (∀ a, a ∈ Py.split "," alt → (Py.len a < 3)%nat) →
  looks_like_str_artifact ref alt = false.
Proof.
  intros Href Halt.
  rewrite looks_like_existsb. apply not_true_is_false. rewrite existsb_exists.
  intros (a & Hin & Hf). apply list_elem_of_In in Hin.
  rewrite short_not_flagged in Hf; [done|].
  apply elem_of_cons in Hin as [->|Hin].
  - by rewrite upper_len.
  - rewrite split_upper in Hin.
    apply list_elem_of_fmap in Hin as (b & -> & Hb).
    rewrite upper_len. by apply Halt.
Qed.

Lemma short_alleles_not_artifact_witness :
  looks_like_str_artifact "A" "T,GC" = false.
Proof.
  apply short_alleles_not_artifact; [cbn; lia|].
  intros a Ha. vm_compute in Ha.
  apply elem_of_cons in Ha as [->|Ha]; [cbn; lia|].
  apply list_elem_of_singleton in Ha as ->. cbn. lia.
Defined.

Section ClassifierExtras.
Context `{!Runtime}.

Lemma append_cons (c : ascii) (p x : string) :
  String c p +:+ x = String c (p +:+ x).
Proof. reflexivity. Qed.

Lemma keep_variant_cases (v : variant) (cfg : config) :
  keep_variant v cfg = (true, "OK")
  ∨ ∃ r, r ∈ drop_reasons cfg ∧ keep_variant v cfg = (false, r).
Proof.
  unfold keep_variant, drop_reasons.
  destruct (require_pass cfg && _); [right; eexists; split; [|done]; by repeat constructor|].
  destruct (v_qual v) as [qual|]; [|right; eexists; split; [|done]; by repeat constructor].
  destruct (Num.isnan qual); [right; eexists; split; [|done]; by repeat constructor|].
  destruct (v_dp v) as [dp|]; [|right; eexists; split; [|done]; by repeat constructor].
  destruct (v_ad_alt_max v) as [ad|]; [|right; eexists; split; [|done]; by repeat constructor].
  destruct (v_vaf v) as [vaf|]; [|right; eexists; split; [|done]; by repeat constructor].
  destruct (Num.ltb qual _); [right; eexists; split; [|done]; by repeat constructor|].
  destruct (dp <? _); [right; eexists; split; [|done]; by repeat constructor|].
  destruct (ad <? _); [right; eexists; split; [|done]; by repeat constructor|].
  destruct (Num.ltb vaf _); [right; eexists; split; [|done]; by repeat constructor|].
  destruct (drop_str_artifacts cfg && _); [right; eexists; split; [|done]; by repeat constructor|].
  by left.
Qed.

Lemma ok_not_drop_reason (cfg : config) : "OK" ∉ drop_reasons cfg.
Proof.
  unfold drop_reasons. intros Hin.
  repeat (apply elem_of_cons in Hin as [Heq|Hin];
          [rewrite ?append_cons in Heq; discriminate Heq|]).
  by apply elem_of_nil in Hin.
Qed.

Lemma reason_kept (v : variant) (cfg : config) :
  (keep_variant v cfg).1 = true → (keep_variant v cfg).2 = "OK".
Proof. by destruct (keep_variant_cases v cfg) as [->|(r & Hr & ->)]. Qed.

Lemma reason_dropped (v : variant) (cfg : config) :
  (keep_variant v cfg).1 = false → (keep_variant v cfg).2 ∈ drop_reasons cfg.
Proof. by destruct (keep_variant_cases v cfg) as [->|(r & Hr & ->)]. Qed.

(** X4: the kept flag is true exactly when the reason is "OK", and false
    exactly when the reason is one of the ten drop reasons of the
    configuration. *)
Theorem reason_ok_iff_kept (v : variant) (cfg : config) :
  ((keep_variant v cfg).1 = true ↔ (keep_variant v cfg).2 = "OK")
  ∧ ((keep_variant v cfg).1 = false
     ↔ (keep_variant v cfg).2 ∈ drop_reasons cfg).
Proof.
  pose proof (ok_not_drop_reason cfg) as Hok.
  destruct (keep_variant_cases v cfg) as [->|(r & Hr & ->)]; simpl.
  - split; split; try done; intros Hin; by destruct Hok.
  - split; split; try done; intros Heq; subst r; by destruct Hok.
Qed.

Lemma kept_conditions (v : variant) (cfg : config) :
  (keep_variant v cfg).1 = true
  ↔ (require_pass cfg = true → v_filt v = "." ∨ v_filt v = "PASS")
    ∧ (∃ qual dp ad vaf,
         v_qual v = Some qual ∧ Num.isnan qual = false
         ∧ v_dp v = Some dp ∧ v_ad_alt_max v = Some ad ∧ v_vaf v = Some vaf
         ∧ Num.ltb qual (qual_min cfg) = false
         ∧ dp_min cfg ≤ dp
         ∧ alt_min cfg ≤ ad
         ∧ Num.ltb vaf (vaf_min cfg) = false)
    ∧ (drop_str_artifacts cfg = true →
       looks_like_str_artifact (v_ref v) (v_alt v) = false).
Proof.
  unfold keep_variant. split.
  - destruct (require_pass cfg) eqn:Hp; simpl.
    + case_bool_decide as Hf; simpl; [|done].
      destruct (v_qual v) as [qual|]; [|done].
      destruct (Num.isnan qual) eqn:Hnan; [done|].
      destruct (v_dp v) as [dp|]; [|done].
      destruct (v_ad_alt_max v) as [ad|]; [|done].
      destruct (v_vaf v) as [vaf|]; [|done].
      destruct (Num.ltb qual _) eqn:Hq; [done|].
      destruct (Z.ltb_spec dp (dp_min cfg)); [done|].
      destruct (Z.ltb_spec ad (alt_min cfg)); [done|].
      destruct (Num.ltb vaf _) eqn:Hv; [done|].
      destruct (drop_str_artifacts cfg) eqn:Hs; simpl.
      * destruct (looks_like_str_artifact _ _) eqn:Hl; [done|]. intros _.
        split; [|split; [|done]].
        { intros _. apply elem_of_cons in Hf as [?|Hf]; [by left|].
          apply list_elem_of_singleton in Hf. by right. }
        exists qual, dp, ad, vaf. repeat split; done.
      * intros _. split; [|split; [|done]].
        { intros _. apply elem_of_cons in Hf as [?|Hf]; [by left|].
          apply list_elem_of_singleton in Hf. by right. }
        exists qual, dp, ad, vaf. repeat split; done.
    + destruct (v_qual v) as [qual|]; [|done].
      destruct (Num.isnan qual) eqn:Hnan; [done|].
      destruct (v_dp v) as [dp|]; [|done].
      destruct (v_ad_alt_max v) as [ad|]; [|done].
      destruct (v_vaf v) as [vaf|]; [|done].
      destruct (Num.ltb qual _) eqn:Hq; [done|].
      destruct (Z.ltb_spec dp (dp_min cfg)); [done|].
      destruct (Z.ltb_spec ad (alt_min cfg)); [done|].
      destruct (Num.ltb vaf _) eqn:Hv; [done|].
      destruct (drop_str_artifacts cfg) eqn:Hs; simpl.
      * destruct (looks_like_str_artifact _ _) eqn:Hl; [done|]. intros _.
        split; [done|]. split; [|done].
        exists qual, dp, ad, vaf. repeat split; done.
      * intros _. split; [done|]. split; [|done].
        exists qual, dp, ad, vaf. repeat split; done.
  - intros (Hpass & (qual & dp & ad & vaf & -> & -> & -> & -> & -> & -> & Hdp
                     & Had & ->) & Hstr).
    assert (require_pass cfg
            && negb (bool_decide (v_filt v ∈ ["."; "PASS"])) = false) as ->.
    { destruct (require_pass cfg); [|done]. simpl.
      rewrite bool_decide_eq_true_2; [done|].
      destruct (Hpass eq_refl) as [->| ->]; by repeat constructor. }
    destruct (Z.ltb_spec dp (dp_min cfg)); [lia|].
    destruct (Z.ltb_spec ad (alt_min cfg)); [lia|].
    destruct (drop_str_artifacts cfg); [|done]. simpl. by rewrite Hstr.
Qed.

(** X5: a record is kept exactly when its filter status is "." or
    "PASS" if the PASS requirement is on, its quality, depth, maximum
    alternate depth and fraction are present and the quality is a number,
    none of the four is below its threshold, and its alleles are not
    flagged if the repeat filter is on. *)
Theorem kept_meets_all_conditions (v : variant) (cfg : config) :
  (keep_variant v cfg).1 = true
  ↔ (require_pass cfg = true → v_filt v = "." ∨ v_filt v = "PASS")
    ∧ (∃ qual dp ad vaf,
         v_qual v = Some qual ∧ Num.isnan qual = false
         ∧ v_dp v = Some dp ∧ v_ad_alt_max v = Some ad ∧ v_vaf v = Some vaf
         ∧ Num.ltb qual (qual_min cfg) = false
         ∧ dp_min cfg ≤ dp
         ∧ alt_min cfg ≤ ad
         ∧ Num.ltb vaf (vaf_min cfg) = false)
    ∧ (drop_str_artifacts cfg = true →
       looks_like_str_artifact (v_ref v) (v_alt v) = false).
Proof. apply kept_conditions. Qed.

(** X6: between two configurations with the same thresholds, the one
    that has the PASS requirement or the repeat filter on only where the
    other has it on keeps every record the other keeps. *)
Theorem relaxing_flags_keeps_more (v : variant) (cfg cfg' : config) :
  qual_min cfg' = qual_min cfg → dp_min cfg' = dp_min cfg →
  alt_min cfg' = alt_min cfg → vaf_min cfg' = vaf_min cfg →
  (require_pass cfg' = true → require_pass cfg = true) →
  (drop_str_artifacts cfg' = true → drop_str_artifacts cfg = true) →
  (keep_variant v cfg).1 = true → (keep_variant v cfg').1 = true.
Proof.
  intros Hq Hd Ha Hv Hp Hs Hk.
  apply kept_conditions in Hk
    as (Hpass & (qual & dp & ad & vaf & Hk) & Hstr).
  apply kept_conditions. rewrite Hq, Hd, Ha, Hv. split; [auto|].
  split; [by exists qual, dp, ad, vaf|auto].
Qed.

(** X7: whatever the command-line options, the four thresholds are
    those of [CONFIG], and every record kept under [CONFIG] is kept under
    the configuration [main] builds. *)
Theorem cli_options_keep_defaults (a : args) (v : variant) :
  qual_min (main_config a) = qual_min CONFIG
  ∧ dp_min (main_config a) = dp_min CONFIG
  ∧ alt_min (main_config a) = alt_min CONFIG
  ∧ vaf_min (main_config a) = vaf_min CONFIG
  ∧ ((keep_variant v CONFIG).1 = true →
     (keep_variant v (main_config a)).1 = true).
Proof.
  assert (qual_min (main_config a) = qual_min CONFIG
          ∧ dp_min (main_config a) = dp_min CONFIG
          ∧ alt_min (main_config a) = alt_min CONFIG
          ∧ vaf_min (main_config a) = vaf_min CONFIG
          ∧ (require_pass (main_config a) = true → require_pass CONFIG = true)
          ∧ (drop_str_artifacts (main_config a) = true
             → drop_str_artifacts CONFIG = true))
    as (Hq & Hd & Ha & Hv & Hp & Hs).
  { unfold main_config. destruct (a_no_pass a), (a_no_str a); done. }
  repeat (split; [done|]).
  intros Hk. apply kept_conditions in Hk
    as (Hpass & (qual & dp & ad & vaf & Hk) & Hstr).
  apply kept_conditions. rewrite Hq, Hd, Ha, Hv. split; [auto|].
  split; [by exists qual, dp, ad, vaf|auto].
Qed.
End ClassifierExtras.

Lemma relaxing_flags_keeps_more_witness :
  (keep_variant (H := example_runtime)
     (mkVariant "S1" "chr1" 100 "A" "T" (Some f_50) "q10" (Some 150)
        (Some 20) (Num.truediv 20 150))
     (mkConfig "" f_1_20 "" f_10 100 5 f_0_05 false false)).1 = true.
Proof.
  apply (relaxing_flags_keeps_more (H := example_runtime) _
           (mkConfig "" f_1_20 "" f_10 100 5 f_0_05 false true));
    try done.
Defined.

Lemma cli_options_keep_defaults_witness :
  (keep_variant (H := example_runtime)
     (mkVariant "S1" "chr1" 100 "A" "T" (Some f_50) "PASS" (Some 150)
        (Some 20) (Num.truediv 20 150))
     (main_config (mkArgs None "." f_10 "P" "hg38" true true))).1 = true.
Proof.
  apply (cli_options_keep_defaults (H := example_runtime)). reflexivity.
Defined.

(** ** Rounding keeps the sign *)

Lemma shr_1_nonneg (mrs : shr_record) :
  0 ≤ shr_m mrs → 0 ≤ shr_m (shr_1 mrs).
Proof.
  destruct mrs as [m r s]. simpl.
  destruct m as [|[p|p|]|p]; simpl; lia.
Qed.

Lemma iter_pos_preserves {A} (P : A → Prop) (f : A → A) :
  (∀ x, P x → P (f x)) → ∀ n x, P x → P (SpecFloat.iter_pos f n x).
Proof.
  intros Hf n. induction n as [n IH|n IH|]; intros x Hx; simpl; auto.
Qed.

Lemma shr_fexp_nonneg (m e : Z) (l : location) :
  0 ≤ m → 0 ≤ shr_m (shr_fexp Num.prec Num.emax m e l).1.
Proof.
  intros Hm. unfold shr_fexp, shr.
  assert (0 ≤ shr_m (shr_record_of_loc m l)) as H0.
  { by destruct l as [|[]]. }
  destruct (_ - e) as [|p|p]; simpl; try done.
  by apply (iter_pos_preserves (λ x, 0 ≤ shr_m x)), H0; apply shr_1_nonneg.
Qed.

Lemma round_nearest_even_nonneg (m : Z) (l : location) :
  0 ≤ m → 0 ≤ round_nearest_even m l.
Proof.
  intros Hm. unfold round_nearest_even.
  destruct l as [|[]]; try done; [destruct (Z.even m)|]; lia.
Qed.

Lemma binary_round_aux_signed (sx : bool) (mx ex : Z) (lx : location) :
  0 ≤ mx → signed sx (binary_round_aux Num.prec Num.emax sx mx ex lx).
Proof.
  intros Hm. unfold binary_round_aux.
  pose proof (shr_fexp_nonneg mx ex lx Hm) as H1.
  destruct (shr_fexp Num.prec Num.emax mx ex lx) as [mrs' e'].
  simpl in H1.
  pose proof (shr_fexp_nonneg _ e' loc_Exact
                (round_nearest_even_nonneg _ (loc_of_shr_record mrs') H1)) as H2.
  destruct (shr_fexp Num.prec Num.emax _ e' loc_Exact) as [mrs'' e''].
  simpl in H2. unfold signed.
  destruct (shr_m mrs'') as [|m|m]; [by left| |lia].
  destruct (e'' <=? _); [right; left; eauto|by right; right].
Qed.

Lemma div_core_nonneg (m1 m2 : positive) (e1 e2 : Z) :
  0 ≤ (SFdiv_core_binary Num.prec Num.emax (Zpos m1) e1 (Zpos m2) e2).1.1.
Proof.
  unfold SFdiv_core_binary.
  set (s := _ - _ - _).
  set (m' := match s with Z.pos _ => Z.shiftl (Z.pos m1) s
                        | 0 => Z.pos m1 | Z.neg _ => 0 end).
  assert (0 ≤ m') as Hm'.
  { unfold m'. destruct s; [lia| |lia]. by apply Z.shiftl_nonneg. }
  pose proof (Z.div_pos m' (Z.pos m2) Hm' ltac:(lia)) as Hq.
  unfold Z.div in Hq. by destruct (Z.div_eucl m' (Z.pos m2)).
Qed.

Lemma div_finite_signed (sx sy : bool) (mx my : positive) (ex ey : Z) :
  signed (xorb sx sy)
    (SFdiv Num.prec Num.emax (S754_finite sx mx ex) (S754_finite sy my ey)).
Proof.
  simpl. pose proof (div_core_nonneg mx my ex ey) as Hq.
  destruct (SFdiv_core_binary _ _ _ _ _ _) as [[q e] l]. simpl in Hq.
  by apply binary_round_aux_signed.
Qed.

(** The quotient of a non-negative by a positive integer, when it is a
    float at all, is the zero or a positive finite number. *)
Lemma truediv_nonneg (a d : Z) (q : float) :
  0 ≤ a → 0 < d → Num.truediv a d = Some q →
  q = S754_zero false ∨ ∃ m e, q = S754_finite false m e.
Proof.
  intros Ha Hd. unfold Num.truediv.
  destruct (Z.eqb_spec d 0); [lia|].
  destruct d as [|pd|pd]; try lia. destruct a as [|pa|pa]; try lia.
  - simpl. intros [= <-]. by left.
  - pose proof (div_finite_signed false false pa pd 0 0) as Hs.
    cbn [Num.exact].
    destruct Hs as [Hs|[(m & e & Hs)|Hs]]; rewrite Hs; simpl.
    + intros [= <-]. by left.
    + intros [= <-]. right. eauto.
    + done.
Qed.

Lemma of_int_signed (k : nat) : signed false (Num.of_int (Z.of_nat k)).
Proof.
  unfold Num.of_int, binary_normalize.
  destruct (Z.of_nat k) as [|p|p] eqn:Hk; [by left| |lia].
  unfold binary_round. destruct (shl_align _ _ _) as [mz ez].
  by apply binary_round_aux_signed.
Qed.

Lemma fdiv_finite_not_nan (x : float) (m : positive) (e : Z) :
  signed false x → Num.isnan (Num.fdiv x (S754_finite false m e)) = false.
Proof.
  intros [->|[(mx & ex & ->)| ->]]; [done| |done].
  unfold Num.fdiv.
  by destruct (div_finite_signed false false mx m ex e)
    as [->|[(? & ? & ->)| ->]].
Qed.

(** ** Decoder: edge inputs and what the result can hold *)

Lemma digits_go_nonneg (l : list ascii) (acc : Z) (b : bool) (n : Z) :
  0 ≤ acc → Num.digits_go acc b l = Some n → 0 ≤ n.
Proof.
  revert acc b. induction l as [|c l IH]; intros acc b Hacc; simpl.
  - destruct b; [|done]. by intros [= <-].
  - destruct (Py.isdigit c).
    + apply IH. unfold Num.digit. lia.
    + destruct (bool_decide _ && b); [by apply IH|done].
Qed.

Lemma int_digits_nonneg (s : string) (n : Z) :
  Num.all_digits s = true → Num.int s = Some n → 0 ≤ n.
Proof.
  intros Hd. rewrite int_digit_string by done. unfold Num.literal.
  destruct (_ <? _)%nat; [done|]. by apply digits_go_nonneg.
Qed.

Lemma alt_depths_nonneg (ad : option string) (a : Z) :
  a ∈ alt_depths_of ad → 0 ≤ a.
Proof.
  unfold alt_depths_of. intros (x & Hx & Hint)%list_elem_of_omap.
  apply list_elem_of_filter in Hx as [Hd _].
  eapply int_digits_nonneg; [by apply Is_true_true|done].
Qed.

Lemma zip_nil_r {A B} (l : list A) : zip l ([] : list B) = [].
Proof. by destruct l. Qed.

(** X8: with a FORMAT text or a sample text that is missing or empty the
    decoder returns the all-absent result. *)
Theorem nothing_to_decode (fmt sample : option string) :
  fmt = None ∨ fmt = Some "" ∨ sample = None ∨ sample = Some "" →
  parse_format fmt sample = inr result_init.
Proof.
  intros Hempty. rewrite parse_format_decoded. f_equal.
  assert (fields fmt sample = ∅) as Hf.
  { unfold fields.
    destruct Hempty as [->|[->|[->| ->]]]; simpl; by rewrite ?zip_nil_r. }
  unfold decoded. rewrite Hf, !lookup_empty. done.
Qed.

Lemma nothing_to_decode_witness :
  parse_format (Some "GT:DP:CLCAD2") None = inr result_init.
Proof. apply nothing_to_decode. auto. Defined.

(** X9: in a decoded result the maximum alternate depth is never
    negative and comes with the allele-depth text; a fraction comes with
    a positive depth and a maximum alternate depth, and is the zero or a
    positive finite float, never not-a-number, infinite or negative. *)
Theorem decoded_values_are_sound (fmt sample : option string) (r : result) :
  parse_format fmt sample = inr r →
  (∀ a, r_ALT_AD_MAX r = Some a → 0 ≤ a ∧ is_Some (r_CLCAD2 r))
  ∧ (∀ q, r_VAF r = Some q →
       (∃ d a, r_DP r = Some d ∧ 0 < d ∧ r_ALT_AD_MAX r = Some a)
       ∧ (q = S754_zero false ∨ ∃ m e, q = S754_finite false m e)).
Proof.
  rewrite parse_format_decoded. intros [= <-]. unfold decoded.
  destruct (decode_depth _) as [d|]; simpl; [|done].
  set (ad := fields fmt sample !! "CLCAD2").
  destruct (over_limit ad); simpl; [done|].
  assert (∀ a, Num.max_list (alt_depths_of ad) = Some a → 0 ≤ a) as Hmax.
  { intros a [Hin _]%max_list_spec. by eapply alt_depths_nonneg. }
  split.
  - intros a Ha. split; [by apply Hmax|].
    destruct ad; [eauto|]. by vm_compute in Ha.
  - intros q Hq. apply fraction_Some in Hq as (dv & a & -> & Hpos & Ha & Hq).
    split; [by exists dv, a|].
    eapply truediv_nonneg; [|done..]. by apply Hmax.
Qed.

Lemma decoded_values_are_sound_witness :
  0 ≤ 40 ∧ is_Some (Some "60,40" : option string).
Proof.
  apply (proj1 (decoded_values_are_sound (Some "DP:CLCAD2") (Some "120:60,40")
                  (mkResult None (Some 120) (Some "60,40") (Some 40)
                     (Num.truediv 40 120))
                  ltac:(vm_compute; reflexivity))).
  reflexivity.
Defined.

(** ** TMB *)

Section TmbExtras.
Context `{!Runtime}.

(** X10: with no kept record and a positive panel size the TMB is
    exactly 0.0. *)
Theorem no_kept_records_zero_tmb (p : float) :
  Num.ltb Num.zero p = true → compute_tmb 0 (Some p) = S754_zero false.
Proof.
  intros Hp. unfold compute_tmb. rewrite Hp, positive_truthy by done.
  by destruct p as [[]|[]| |[] ? ?].
Qed.

(** X11: for a panel size that is not infinite the TMB is not-a-number
    exactly when the size is not positive, and for a positive size the
    report line shows the number. *)
Theorem tmb_is_nan_iff (kept_count : nat) (p : float) :
  Num.isinf p = false →
  (Num.isnan (compute_tmb kept_count (Some p)) = true
   ↔ Num.ltb Num.zero p = false)
  ∧ (Num.ltb Num.zero p = true →
     tmb_line (compute_tmb kept_count (Some p))
     = "TMB (varyant/Mb): "
       +:+ format_fixed 2 (compute_tmb kept_count (Some p))).
Proof.
  intros Hinf.
  assert (Num.ltb Num.zero p = true →
          Num.isnan (compute_tmb kept_count (Some p)) = false) as Hnum.
  { intros Hp. unfold compute_tmb. rewrite Hp, positive_truthy by done.
    destruct p as [[]|[]| |[] m e]; try done.
    apply fdiv_finite_not_nan, of_int_signed. }
  split.
  - destruct (Num.ltb Num.zero p) eqn:Hp.
    + rewrite Hnum by done. done.
    + unfold compute_tmb. rewrite Hp, andb_false_r. done.
  - intros Hp. unfold tmb_line. by rewrite Hnum.
Qed.
End TmbExtras.

Lemma no_kept_records_zero_tmb_witness :
  compute_tmb 0 (Some f_1_20) = S754_zero false.
Proof. by apply no_kept_records_zero_tmb. Defined.

Lemma tmb_is_nan_iff_witness :
  Num.isnan (compute_tmb 3 (Some (S754_zero true))) = true.
Proof.
  by apply (proj1 (tmb_is_nan_iff (H := example_runtime) 3
                     (S754_zero true) eq_refl)).
Defined.

(** ** Reader: what every record carries *)

Section ReaderExtras.
Context `{!Runtime}.

Lemma line_record_fields (hdr : list string) (sn : option string)
    (vcf_path line : string) (v : variant) :
  line_record hdr sn vcf_path line = Some v →
  is_data_line line = true
  ∧ v_sample v = sample_or_basename sn vcf_path
  ∧ is_Some (v_qual v).
Proof.
  unfold line_record. destruct (is_data_line line); [|done].
  destruct (line_fields _ _ _) as [[[[[[[[? ?] ?] ?] ?] ?] ?] ?]|]; [|done].
  simpl. intros [= <-]. simpl. eauto.
Qed.

Lemma filter_length_le {A} (P Q : A → Prop) `{!∀ x, Decision (P x)}
    `{!∀ x, Decision (Q x)} (l : list A) :
  (∀ x, P x → Q x) → (length (filter P l) ≤ length (filter Q l))%nat.
Proof.
  intros HPQ. induction l as [|x l IH]; [done|]. rewrite !filter_cons.
  destruct (decide (P x)) as [HP|HP].
  - rewrite (decide_True (P:=Q x)) by auto. simpl. lia.
  - destruct (decide (Q x)); simpl; lia.
Qed.

(** X12: every record of a successful read carries the sample name the
    reader returns and a quality value, and there are at most as many
    records as lines that are neither empty nor comments. *)
Theorem records_carry_sample (fs : filesystem) (vcf_path : string)
    (lines : list string) (sample : string) (variants : list variant) :
  fs vcf_path = Some lines →
  read_vcf_variants fs vcf_path = inr (sample, variants) →
  Forall (λ v, v_sample v = sample ∧ is_Some (v_qual v)) variants
  ∧ (length variants
     ≤ length (filter (λ line, is_data_line line = true) lines))%nat.
Proof.
  intros Hfs. rewrite read_vcf_variants_closed, Hfs.
  destruct (header_line lines) as [line|]; [|done]. cbn zeta.
  destruct (has_columns _ _); [|done]. intros [= <- <-]. split.
  - apply Forall_forall. intros v (l & _ & Hl)%list_elem_of_omap.
    by apply line_record_fields in Hl as (_ & ? & ?).
  - rewrite omap_length_filter. apply filter_length_le.
    intros l [v Hv]. by apply line_record_fields in Hv as (? & _).
Qed.

(** X13: a sample name found in the header is its last column and FORMAT
    is a column; the sample field of a line is read at the last header
    position, so a line that gives a record has at least as many fields as
    the header. *)
Theorem sample_column_is_last (hdr : list string) (n : string)
    (vcf_path line : string) :
  header_sample hdr = Some n →
  last hdr = Some n
  ∧ "FORMAT" ∈ hdr
  ∧ column_index hdr !! n = Some (length hdr - 1)%nat
  ∧ (Py.truthy n = true →
     is_Some (line_record hdr (Some n) vcf_path line) →
     (length hdr ≤ length (data_parts line))%nat).
Proof.
  unfold header_sample. case_bool_decide as Hf; simpl; [|done].
  destruct (_ <? _)%nat; [|done]. intros Hlast.
  pose proof (column_index_sample hdr n Hlast) as Hidx.
  repeat (split; [done|]). intros Ht [_ [Hcols _]]%line_record_is_Some.
  destruct (Hcols n) as (i & Hi & Hlt).
  { unfold columns_read. rewrite !elem_of_app. do 3 right. rewrite Ht. left. }
  rewrite Hidx in Hi. injection Hi as <-.
  assert (0 < length hdr)%nat by (destruct hdr; [done|simpl; lia]). lia.
Qed.

(** X14: a column name is looked up at its last occurrence in the
    header. *)
Theorem repeated_column_read_last (hdr : list string) (name : string)
    (i : nat) :
  column_index hdr !! name = Some i
  ↔ hdr !! i = Some name ∧ ∀ j, (i < j)%nat → hdr !! j ≠ Some name.
Proof. apply column_index_last. Qed.
End ReaderExtras.

Lemma records_carry_sample_witness :
  ∃ variants,
    read_vcf_variants (H := example_runtime) example_fs "data/good.vcf"
    = inr ("S1", variants)
    ∧ Forall (λ v, v_sample v = "S1" ∧ is_Some (v_qual v)) variants.
Proof.
  eexists. split; [vm_compute; reflexivity|].
  eapply (records_carry_sample (H := example_runtime) example_fs
            "data/good.vcf"); [reflexivity|vm_compute; reflexivity].
Defined.

Lemma sample_column_is_last_witness :
  last ["CHROM"; "POS"; "FORMAT"; "S1"; "S2"] = Some "S2".
Proof.
  apply (sample_column_is_last (H := example_runtime)
           ["CHROM"; "POS"; "FORMAT"; "S1"; "S2"] "S2" "" "").
  reflexivity.
Defined.

(** ** The sample name of a header line *)

Lemma lstrip_by_cases (p : ascii → bool) (l : list ascii) :
  Py.lstrip_by p l = [] ∨ ∃ c l', Py.lstrip_by p l = c :: l' ∧ p c = false.
Proof.
  induction l as [|c l IH]; simpl; [by left|].
  destruct (p c) eqn:Hc; [done|]. right. eauto.
Qed.

Lemma lstrip_by_app (p : ascii → bool) (a b : list ascii) (c : ascii) :
  p c = false → ∃ x, Py.lstrip_by p (a ++ c :: b) = x ++ c :: b
                     ∧ (x = [] ∨ ∃ d x', x = d :: x' ∧ p d = false).
Proof.
  intros Hc. induction a as [|d a IH]; simpl.
  - rewrite Hc. exists []. split; [done|by left].
  - destruct (p d) eqn:Hd; [done|]. exists (d :: a). split; [done|].
    right. eauto.
Qed.

(** Stripping the right end of a text that has a non-space character *)
Lemma rstrip_by_app (p : ascii → bool) (a b : list ascii) (c : ascii) :
  p c = false →
  ∃ y, Py.rstrip_by p (a ++ c :: b) = a ++ c :: y
       ∧ (y = [] ∨ ∃ d, last y = Some d ∧ p d = false).
Proof.
  intros Hc. unfold Py.rstrip_by.
  rewrite reverse_app, reverse_cons, <- app_assoc. simpl.
  destruct (lstrip_by_app p (reverse b) (reverse a) c Hc) as (x & -> & Hx).
  exists (reverse x). split.
  - rewrite reverse_app, reverse_cons, reverse_involutive, <- app_assoc. done.
  - destruct Hx as [->|(d & x' & -> & Hd)]; [by left|right].
    exists d. split; [|done]. rewrite reverse_cons. apply last_snoc.
Qed.

Lemma split_go_nonempty (sep : ascii) (l cur : list ascii) :
  Py.split_go sep cur l ≠ [].
Proof.
  revert cur. induction l as [|c l IH]; intros cur; simpl; [done|].
  case_bool_decide; [done|apply IH].
Qed.

Lemma split_go_last (sep : ascii) (l cur : list ascii) (piece : string) :
  last (Py.split_go sep cur l) = Some piece →
  last l ≠ Some sep → cur ≠ [] ∨ l ≠ [] →
  Py.truthy piece = true.
Proof.
  revert cur. induction l as [|c l IH]; intros cur; simpl.
  - intros [= <-] _ [Hcur|?]; [|done]. apply truthy_chars.
    rewrite chars_str. intros Hrev. apply Hcur.
    apply (f_equal reverse) in Hrev. by rewrite reverse_involutive in Hrev.
  - case_bool_decide as Hsep.
    + subst c. intros Hlast Hnot _.
      assert (l ≠ []) as Hl by (intros ->; by apply Hnot).
      pose proof (split_go_nonempty sep l []) as Hne.
      destruct (Py.split_go sep [] l) as [|x rest] eqn:Hs; [done|].
      rewrite <- Hs in Hlast. apply (IH []).
      * rewrite Hs. rewrite Hs in Hlast. exact Hlast.
      * destruct l; [done|exact Hnot].
      * by right.
    + intros Hlast Hnot _. apply (IH (c :: cur)); [done| |by left].
      destruct l; [done|exact Hnot].
Qed.

Lemma startswith_chars (p s : string) :
  Py.startswith p s = true → ∃ rest, Py.chars s = Py.chars p ++ rest.
Proof.
  unfold Py.startswith. revert s. induction p as [|a p IH]; intros s.
  - intros _. by exists (Py.chars s).
  - destruct s as [|b s]; [done|].
    change (String.prefix (String a p) (String b s))
      with (if ascii_dec a b then String.prefix p s else false).
    destruct (ascii_dec a b) as [->|]; [|done].
    intros [rest Hrest]%IH. exists rest. simpl. by rewrite Hrest.
Qed.

Lemma startswith_chrom (line : string) :
  Py.startswith "#CHROM" line = true →
  ∃ rest, Py.chars line
          = "#"%char :: "C"%char :: "H"%char :: "R"%char :: "O"%char
            :: "M"%char :: rest.
Proof. intros [rest Hrest]%startswith_chars. by exists rest. Qed.

(** X15: the sample name of a header line is never empty, so the
    basename of the path is used only when there is no sample column. *)
Theorem header_sample_not_empty (line n : string) :
  Py.startswith "#CHROM" line = true →
  header_sample (header_cols_of line) = Some n →
  Py.truthy n = true ∧ has_sample (Some n) = true.
Proof.
  intros [rest Hline]%startswith_chrom Hsample.
  assert (Py.truthy n = true) as Ht; [|done].
  assert (last (header_cols_of line) = Some n) as Hlast.
  { unfold header_sample in Hsample. by destruct (_ && _). }
  clear Hsample. unfold header_cols_of, Py.split, Py.lstrip, Py.strip in Hlast.
  rewrite !chars_str, Hline in Hlast.
  rewrite (lstrip_by_head Py.isspace "#"%char) in Hlast by reflexivity.
  destruct (rstrip_by_app Py.isspace
              ["#"%char; "C"%char; "H"%char; "R"%char; "O"%char]
              rest "M"%char eq_refl) as (y & Hy & Hend).
  simpl in Hy. rewrite Hy in Hlast.
  assert (∀ tl, Py.lstrip_by (Py.is_char "#") ("#"%char :: "C"%char :: tl)
                = "C"%char :: tl) as Hhash.
  { intros tl. unfold Py.is_char. cbn [Py.lstrip_by].
    by rewrite bool_decide_eq_true_2, bool_decide_eq_false_2. }
  rewrite Hhash in Hlast.
  eapply split_go_last; [exact Hlast| |by right].
  destruct Hend as [->|(d & Hd & Hsp)]; [done|].
  change (last ("C"%char :: "H"%char :: "R"%char :: "O"%char :: "M"%char :: y))
    with (last (["C"; "H"; "R"; "O"; "M"]%char ++ y)).
  destruct y as [|y0 y']; [done|].
  rewrite last_app, Hd. simpl. intros [= ->]. done.
Qed.

Lemma header_sample_not_empty_witness :
  Py.truthy "S1" = true ∧ has_sample (Some "S1") = true.
Proof.
  apply (header_sample_not_empty
           (tsv ["#CHROM"; "POS"; "ID"; "REF"; "ALT"; "QUAL"; "FILTER";
                 "INFO"; "FORMAT"; "S1"]));
    vm_compute; reflexivity.
Defined.

Section DriverExtras.
Context `{!Runtime}.

(** ** Text report *)

Lemma kept_lines_length (rs : list row) (ls : list string) :
  kept_lines rs = inr ls → length ls = length rs.
Proof.
  revert ls. induction rs as [|r rs IH]; intros ls; simpl.
  - by intros [= <-].
  - destruct (kept_line r) as [e|l]; [done|]. simpl.
    destruct (kept_lines rs) as [e|ls']; [done|]. simpl.
    intros [= <-]. simpl. f_equal. by apply IH.
Qed.

Lemma kept_lines_lookup (rs : list row) (ls : list string) (i : nat)
    (r : row) :
  kept_lines rs = inr ls → rs !! i = Some r →
  ∃ l, kept_line r = inr l ∧ ls !! i = Some l.
Proof.
  revert ls i. induction rs as [|r0 rs IH]; intros ls i; simpl; [done|].
  destruct (kept_line r0) as [e|l0] eqn:Hl0; [done|]. simpl.
  destruct (kept_lines rs) as [e|ls'] eqn:Hls; [done|]. simpl.
  intros [= <-]. destruct i as [|i]; simpl.
  - intros [= <-]. eauto.
  - by apply IH.
Qed.

(** X16: when the lines of a report can be built, the list has 19
    entries and one more for each kept row up to 20.  Its first entry is
    the title followed by a line end, so in the written text every later
    entry stands one line further down than in the list; the entry at
    index 10 shows the full number of kept rows and the entry at index
    11 the TMB line.  The entries from index 19 on are the listing lines
    of the first 20 kept rows, in order; a kept row after the twentieth
    is counted but not listed. *)
Theorem report_lists_first_twenty (sample_name : string) (kept : list row)
    (cfg : config) (vcf_path : string) (tmb : float) (lines : list string) :
  report_lines sample_name kept cfg vcf_path tmb = inr lines →
  length lines = (19 + length kept `min` 20)%nat
  ∧ lines !! 0%nat = Some ("*** TMB RAPORU ***" +:+ Py.nl)
  ∧ lines !! 10%nat
    = Some ("Nitelikli varyant sayısı: "
            +:+ Num.str_int (Z.of_nat (length kept)))
  ∧ lines !! 11%nat = Some (tmb_line tmb)
  ∧ kept_lines (take 20 kept) = inr (drop 19 lines)
  ∧ (∀ i r, kept !! i = Some r → (i < 20)%nat →
       ∃ l, kept_line r = inr l ∧ lines !! (19 + i)%nat = Some l)
  ∧ (∀ i, (20 ≤ i)%nat → lines !! (19 + i)%nat = None).
Proof.
  unfold report_lines.
  destruct (kept_lines (take 20 kept)) as [e|listing] eqn:Hl; [done|].
  cbn [mbind Res_bind]. intros [= <-].
  pose proof (kept_lines_length _ _ Hl) as Hlen. rewrite length_take in Hlen.
  split; [simpl; rewrite Hlen; lia|]. do 3 (split; [done|]).
  split; [done|]. split.
  - intros i r Hr Hi.
    destruct (kept_lines_lookup (take 20 kept) listing i r Hl)
      as (l & Hline & Hlook).
    { by rewrite lookup_take_lt. }
    exists l. split; [done|]. exact Hlook.
  - intros i Hi. apply lookup_ge_None_2. simpl. rewrite Hlen. lia.
Qed.

(** ** One file *)

Lemma classify_row (cfg : config) (v : variant) :
  row_sample (classify cfg v) = v_sample v
  ∧ row_kept (classify cfg v) = (keep_variant v cfg).1
  ∧ row_reason (classify cfg v) = (keep_variant v cfg).2.
Proof. done. Qed.


(** X18: on success the report path is the output directory joined with
    the sample name and "_TMB_report.txt", the TMB is the one of the
    number of kept rows, every kept row has reason "OK" and a quality,
    every dropped row has one of the drop reasons, and all rows carry the
    sample name. *)
Theorem process_vcf_rows (fs : filesystem) (vcf_path outdir : string)
    (cfg : config) (sample : string) (kept dropped : list row)
    (txt_path : string) (tmb : float) :
  process_vcf fs vcf_path outdir cfg
  = inr (sample, kept, dropped, txt_path, tmb) →
  txt_path = path_join outdir (sample +:+ "_TMB_report.txt")
  ∧ tmb = compute_tmb (length kept) (Some (panel_mb cfg))
  ∧ Forall (λ r, row_reason r = "OK" ∧ row_sample r = sample
                 ∧ is_Some (row_qual r)) kept
  ∧ Forall (λ r, row_reason r ∈ drop_reasons cfg ∧ row_sample r = sample)
           dropped.
Proof.
  rewrite process_vcf_closed.
  destruct (read_vcf_variants fs vcf_path) as [e|[sample' variants]] eqn:Hread;
    [done|].
  cbn zeta. destruct (write_text _ _) as [e|[]]; [done|].
  intros [= -> <- <- <- <-].
  assert (Forall (λ v, v_sample v = sample) variants) as Hsample.
  { revert Hread. rewrite read_vcf_variants_closed.
    destruct (fs vcf_path) as [lines|]; [|done].
    destruct (header_line lines) as [line|]; [|done]. cbn zeta.
    destruct (has_columns _ _); [|done]. intros [= <- <-].
    apply Forall_forall. intros v (l & _ & Hl)%list_elem_of_omap.
    by apply line_record_fields in Hl as (_ & ? & _). }
  rewrite Forall_forall in Hsample.
  split; [done|]. split; [done|]. split.
  - apply Forall_forall. intros r [Hk Hin]%list_elem_of_filter.
    apply list_elem_of_fmap in Hin as (v & -> & Hv).
    destruct (classify_row cfg v) as (-> & Hkept & ->).
    rewrite Hkept in Hk. split; [by apply reason_kept|].
    split; [by apply Hsample|]. by apply (kept_has_qual v cfg).
  - apply Forall_forall. intros r [Hk Hin]%list_elem_of_filter.
    apply list_elem_of_fmap in Hin as (v & -> & Hv).
    destruct (classify_row cfg v) as (-> & Hkept & ->).
    rewrite Hkept in Hk. split; [by apply reason_dropped|by apply Hsample].
Qed.

(** ** The batch *)

Lemma main_file_lists (fs : filesystem) (outdir : string) (cfg : config)
    (vcf_path : string) (b : batch) :
  ∃ b', main_file fs outdir cfg vcf_path b = (b', inr tt)
        ∧ all_rows b' = all_rows b ++ rows_of fs outdir cfg vcf_path
        ∧ txt_paths b' = txt_paths b ++ txt_of fs outdir cfg vcf_path.
Proof.
  unfold main_file, rows_of, txt_of, St.try_except, mbind, ST_bind, St.bind,
    St.of_res.
  destruct (process_vcf fs vcf_path outdir cfg)
    as [e|[[[[sample kept] dropped] txt_path] tmb_val]]; simpl.
  - eexists. split; [done|]. simpl. by rewrite !app_nil_r.
  - eexists. split; [done|]. done.
Qed.

Lemma main_files_lists (fs : filesystem) (outdir : string) (cfg : config)
    (vcf : list string) (b : batch) :
  ∃ b', main_files fs outdir cfg vcf b = (b', inr tt)
        ∧ all_rows b' = all_rows b ++ (vcf ≫= rows_of fs outdir cfg)
        ∧ txt_paths b' = txt_paths b ++ (vcf ≫= txt_of fs outdir cfg).
Proof.
  revert b. induction vcf as [|p rest IH]; intros b.
  - exists b. simpl. by rewrite !app_nil_r.
  - destruct (main_file_lists fs outdir cfg p b) as (b1 & Hrun1 & Hr1 & Ht1).
    destruct (IH b1) as (b2 & Hrun2 & Hr2 & Ht2).
    exists b2. split; [|split].
    + cbn [main_files]. unfold mbind at 1, ST_bind, St.bind. by rewrite Hrun1.
    + rewrite Hr2, Hr1, <- app_assoc. done.
    + rewrite Ht2, Ht1, <- app_assoc. done.
Qed.

(** X19: from the parsed arguments on, the loop of [main] collects the
    rows and the report paths of the inputs in order, an input that
    raised adding none, and a missing input list counts as empty.  When
    [main] returns, it returns status 0 with these lists, the output
    directory made and the rest of the run done.  When [main] raises,
    either making the output directory raised and nothing was read, or
    the loop went through every input and the workbook or the console
    summary raised: no input makes [main] raise. *)
Theorem batch_collects_successes (fs : filesystem) (a : args) :
  ∃ b, main_files fs (a_outdir a) (main_config a) (default [] (a_vcf a))
         batch_init = (b, inr tt)
     ∧ all_rows b
       = default [] (a_vcf a) ≫= rows_of fs (a_outdir a) (main_config a)
     ∧ txt_paths b
       = default [] (a_vcf a) ≫= txt_of fs (a_outdir a) (main_config a)
     ∧ summary_rows b
       = summary_of fs (a_outdir a) (main_config a) <$> default [] (a_vcf a)
     ∧ (∀ p e, process_vcf fs p (a_outdir a) (main_config a) = inl e →
          rows_of fs (a_outdir a) (main_config a) p = []
          ∧ txt_of fs (a_outdir a) (main_config a) p = [])
     ∧ (∀ b' z, main_args fs a batch_init = (b', inr z) →
          z = 0 ∧ b' = b ∧ makedirs (a_outdir a) = inr tt
          ∧ main_end (a_outdir a) b = inr 0)
     ∧ (∀ b' e, main_args fs a batch_init = (b', inl e) →
          (makedirs (a_outdir a) = inl e ∧ b' = batch_init)
          ∨ (makedirs (a_outdir a) = inr tt ∧ b' = b
             ∧ main_end (a_outdir a) b = inl e)).
Proof.
  destruct (main_files_lists fs (a_outdir a) (main_config a)
              (default [] (a_vcf a)) batch_init) as (b & Hrun & Hrows & Htxt).
  destruct (main_files_run fs (a_outdir a) (main_config a)
              (default [] (a_vcf a)) batch_init) as (b' & Hrun' & Hsum).
  rewrite Hrun in Hrun'. injection Hrun' as <-.
  exists b. do 4 (split; [done|]). split; [|split].
  - intros p e He. unfold rows_of, txt_of. by rewrite He.
  - intros b' z. unfold main_args. rewrite (main_run_closed _ _ _ _ b Hrun).
    destruct (makedirs (a_outdir a)) as [e|[]]; [done|].
    intros [= <- Hend].
    assert (z = 0) as ->; [|done].
    revert Hend. unfold main_end.
    destruct (write_excel _ _ _) as [e|x]; [done|]. simpl.
    destruct (console_summary _ _) as [e|[]]; [done|]. simpl. congruence.
  - intros b' e. unfold main_args. rewrite (main_run_closed _ _ _ _ b Hrun).
    destruct (makedirs (a_outdir a)) as [e'|[]].
    + intros [= <- <-]. by left.
    + intros [= <- Hend]. right. done.
Qed.
End DriverExtras.

(** ** Bulk analyzer (tmb_bulk_analyzer.py) *)

Lemma count_lines_filter (lines : list string) (count : nat) :
  Bulk.count_lines lines count
  = (count
     + length (filter (λ line, Py.startswith "#" line = false
                               ∧ Bulk.counted line = true) lines))%nat.
Proof.
  revert count. induction lines as [|line rest IH]; intros count; simpl.
  - lia.
  - destruct (Py.startswith "#" line) eqn:Hc.
    + rewrite filter_cons_False by (intros [? _]; congruence). apply IH.
    + destruct (Bulk.counted line) eqn:Hl.
      * rewrite filter_cons_True by done. rewrite IH. simpl. lia.
      * rewrite filter_cons_False by (intros [_ ?]; congruence). apply IH.
Qed.

(** X20: the bulk counter counts the lines that are not comments, have at
    least five tab-separated fields, and whose REF and ALT fields are both
    non-empty or one of them longer than one character; the distinction
    it draws between single-base and longer alleles excludes nothing
    else. *)
Theorem bulk_count_condition (lines : list string) :
  Bulk.count_variants lines
  = length (filter (λ line, Py.startswith "#" line = false
                            ∧ Bulk.counted line = true) lines)
  ∧ (Bulk.count_variants lines
     ≤ length (filter (λ line, Py.startswith "#" line = false) lines))%nat
  ∧ (∀ line, Bulk.counted line = true
       ↔ ∃ ref alt, (5 ≤ length (Py.split Py.tab line))%nat
           ∧ Py.split Py.tab line !! 3%nat = Some ref
           ∧ Py.split Py.tab line !! 4%nat = Some alt
           ∧ ((ref ≠ "" ∧ alt ≠ "")
              ∨ (1 < Py.len ref)%nat ∨ (1 < Py.len alt)%nat)).
Proof.
  split; [|split].
  - unfold Bulk.count_variants. by rewrite count_lines_filter.
  - unfold Bulk.count_variants. rewrite count_lines_filter. simpl.
    apply filter_length_le. by intros line [? _].
  - intros line. unfold Bulk.counted.
    assert (∀ s, Py.len s = 0%nat ↔ s = "") as Hlen.
    { intros s. unfold Py.len. rewrite length_zero_iff_nil. apply chars_nil. }
    destruct (Nat.leb_spec 5 (length (Py.split Py.tab line))) as [Hf|Hf].
    + destruct (Py.split Py.tab line !! 3%nat) as [ref|] eqn:Hr.
      2:{ split; [done|]. by intros (? & ? & _ & ? & _). }
      destruct (Py.split Py.tab line !! 4%nat) as [alt|] eqn:Ha.
      2:{ split; [done|]. by intros (? & ? & _ & _ & ? & _). }
      rewrite !orb_true_iff, andb_true_iff, !Nat.eqb_eq, !Nat.ltb_lt.
      pose proof (Hlen ref). pose proof (Hlen alt). split.
      * intros Hc. exists ref, alt. repeat (split; [done|]).
        destruct Hc as [[H1 H2]|[?|?]]; [left|by right; left|by right; right].
        split; intros ->; cbn in *; lia.
      * intros (ref' & alt' & _ & [= <-] & [= <-] & Hc).
        destruct Hc as [[H1 H2]|[?|?]]; [|by right; left|by right; right].
        assert (Py.len ref ≠ 0%nat) by tauto.
        assert (Py.len alt ≠ 0%nat) by tauto. lia.
    + split; [done|]. intros (? & ? & ? & _). lia.
Qed.

(** ** Running the further properties *)

Lemma report_lists_first_twenty_witness :
  ∃ lines,
    report_lines (H := example_runtime) "S1"
      (replicate 21 (mkRow "S1" "chr1" 100 "A" "T" (Some f_50) "PASS"
                       (Some 150) (Some 20) (Num.truediv 20 150) true "OK"))
      CONFIG "a.vcf" f_10 = inr lines
    ∧ length lines = 39%nat
    ∧ lines !! 38%nat = Some "chr1:100 A>T |  | 150 | 20 | "
    ∧ lines !! 39%nat = None.
Proof.
  destruct (report_lines (H := example_runtime) "S1"
      (replicate 21 (mkRow "S1" "chr1" 100 "A" "T" (Some f_50) "PASS"
                       (Some 150) (Some 20) (Num.truediv 20 150) true "OK"))
      CONFIG "a.vcf" f_10) as [e|lines] eqn:Hl.
  - vm_compute in Hl. discriminate Hl.
  - exists lines. split; [reflexivity|].
    destruct (report_lists_first_twenty (H := example_runtime) _ _ _ _ _ _ Hl)
      as (Hlen & _ & _ & _ & _ & Hrow & Hnone).
    split; [exact Hlen|]. split; [|by apply (Hnone 20%nat)].
    destruct (Hrow 19%nat
                (mkRow "S1" "chr1" 100 "A" "T" (Some f_50) "PASS"
                   (Some 150) (Some 20) (Num.truediv 20 150) true "OK"))
      as (l & Hk & Hline); [reflexivity|lia|].
    change (19 + 19)%nat with 38%nat in Hline. rewrite Hline.
    vm_compute in Hk. by injection Hk as <-.
Defined.


Lemma process_vcf_rows_witness :
  match process_vcf (H := example_runtime) example_fs "data/good.vcf" "out"
          CONFIG with
  | inr (sample, kept, dropped, txt_path, tmb) =>
      txt_path = path_join "out" (sample +:+ "_TMB_report.txt")
      ∧ Forall (λ r, row_reason r = "OK") kept
  | inl _ => False
  end.
Proof.
  destruct (process_vcf (H := example_runtime) example_fs "data/good.vcf"
              "out" CONFIG)
    as [e|[[[[sample kept] dropped] txt_path] tmb]] eqn:Hp.
  - vm_compute in Hp. discriminate Hp.
  - destruct (process_vcf_rows (H := example_runtime) _ _ _ _ _ _ _ _ _ Hp)
      as (Htxt & _ & Hkept & _).
    split; [exact Htxt|]. eapply Forall_impl; [exact Hkept|]. by intros r [? _].
Defined.

Lemma batch_collects_successes_witness :
  ∃ b, main_args (H := example_runtime) example_fs
         (mkArgs (Some ["data/missing.vcf"; "data/good.vcf"]) "out" f_1_20
            "P" "hg19" false false) batch_init = (b, inr 0)
       ∧ txt_paths b = ["out/S1_TMB_report.txt"]
       ∧ length (all_rows b) = 2%nat.
Proof.
  destruct (main_args (H := example_runtime) example_fs
              (mkArgs (Some ["data/missing.vcf"; "data/good.vcf"]) "out"
                 f_1_20 "P" "hg19" false false) batch_init)
    as [b' [e|z]] eqn:Hmain.
  - vm_compute in Hmain. discriminate Hmain.
  - destruct (batch_collects_successes (H := example_runtime) example_fs
                (mkArgs (Some ["data/missing.vcf"; "data/good.vcf"]) "out"
                   f_1_20 "P" "hg19" false false))
      as (b & _ & Hrows & Htxt & _ & _ & Hret & _).
    destruct (Hret b' z Hmain) as (-> & -> & _).
    exists b. split; [reflexivity|]. rewrite Hrows, Htxt.
    split; vm_compute; reflexivity.
Defined.
